(** * pico_flexx_driver: a shallow embedding of [src/pico_flexx_driver.cpp]

    The driver receives depth frames from the royale SDK on a callback thread,
    hands them through a one-place slot to a processing thread, converts each
    frame into a mono image, a depth image, a noise image and a point cloud, and
    publishes what has subscribers.  A nodelet wrapper polls [isCurrent] and
    rebuilds the driver when it has stalled.

    Conventions of the embedding.
    - A C++ [float] is its IEEE-754 binary32 bit pattern, a [Z] below [2^32];
      comparisons decode the pattern to a [spec_float].  A [double] is kept as
      the [spec_float] value it denotes.
    - Unsigned and signed machine integers are [Z] with the wrap-around of the
      conversion written where the source converts.
    - The byte vectors of the ROS messages are viewed through the typed pointer
      the source writes them with: one list cell per [float] or [uint16_t].
    - The camera is the interface [royale.ICameraDevice]; the statements about
      the driver hold for any implementation of it.
    - Everything that touches the slot does so under [lockData], everything that
      touches [status] under [lockStatus]; the critical sections are the atomic
      steps of the model. *)

From Stdlib Require Import ZArith Bool Lia.
From Stdlib Require Import Floats.SpecFloat.
From stdpp Require Import base list strings.

Local Open Scope Z_scope.

(** ** Machine integers *)

Definition wrap_u32 (n : Z) : Z := n mod 2 ^ 32.
Definition wrap_u64 (n : Z) : Z := n mod 2 ^ 64.
Definition INT_MAX : Z := 2 ^ 31 - 1.
(* conversion to [int]; [++] on an [int] at [INT_MAX] is undefined in C++, the
   model gives it the two's complement result the hardware produces *)
Definition wrap_int (n : Z) : Z := (n + 2 ^ 31) mod 2 ^ 32 - 2 ^ 31.

(** ** Binary32 and binary64 values *)

(* a float: its bit pattern; a double: its value *)
Abbreviation float32 := Z (only parsing).
Abbreviation double := spec_float (only parsing).

Module F32.

Definition prec := 24.
Definition emax := 128.

Definition decode (b : float32) : spec_float :=
  let s := Z.testbit b 31 in
  let e := Z.land (Z.shiftr b 23) 0xff in
  let m := Z.land b 0x7fffff in
  if e =? 0 then
    if m =? 0 then S754_zero s else S754_finite s (Z.to_pos m) (-149)
  else if e =? 0xff then
    if m =? 0 then S754_infinity s else S754_nan
  else S754_finite s (Z.to_pos (m + 0x800000)) (e - 150).

Definition sign_bit (s : bool) : Z := if s then 0x80000000 else 0.

Definition encode (f : spec_float) : float32 :=
  match f with
  | S754_zero s => sign_bit s
  | S754_infinity s => Z.lor (sign_bit s) 0x7f800000
  | S754_nan => 0x7fc00000
  | S754_finite s m e =>
      if 0x800000 <=? Z.pos m
      then Z.lor (sign_bit s) (Z.lor (Z.shiftl (e + 150) 23) (Z.pos m - 0x800000))
      else Z.lor (sign_bit s) (Z.pos m)
  end.

(* std::numeric_limits<float>::quiet_NaN() *)
Definition quiet_NaN : float32 := 0x7fc00000.
(* 0.0f *)
Definition zero : float32 := 0.

Definition is_nan (b : float32) : bool :=
  match decode b with S754_nan => true | _ => false end.

(* a < b on floats: false as soon as one side is a NaN *)
Definition ltb (a b : float32) : bool := SFltb (decode a) (decode b).

(* a <= b on floats *)
Definition leb (a b : float32) : bool := SFleb (decode a) (decode b).

(* integer to float conversion, round to nearest even *)
Definition of_Z (n : Z) : float32 := encode (binary_normalize prec emax n 0 false).

(* the integer a pattern denotes, when it denotes one *)
Definition to_Z (b : float32) : option Z :=
  match decode b with
  | S754_zero _ => Some 0
  | S754_finite s m e =>
      if 0 <=? e then Some (cond_Zopp s (Z.pos m * 2 ^ e))
      else if Z.pos m mod 2 ^ (- e) =? 0 then Some (cond_Zopp s (Z.pos m / 2 ^ (- e)))
      else None
  | _ => None
  end.

(* (float)d for a double d *)
Definition of_double (d : double) : float32 :=
  encode match d with
         | S754_finite s m e => binary_normalize prec emax (cond_Zopp s (Z.pos m)) e s
         | _ => d
         end.

(* (double)f for a float f: exact *)
Definition to_double (b : float32) : double :=
  match decode b with
  | S754_finite s m e => binary_normalize 53 1024 (cond_Zopp s (Z.pos m)) e s
  | f => f
  end.

End F32.

(* [P] on every integer whose bits above the lowest [n] are those of [b] *)
Fixpoint all_below (n : nat) (P : Z -> bool) (b : Z) : bool :=
  match n with
  | O => P b
  | S k => all_below k P (2 * b) && all_below k P (2 * b + 1)
  end.

(* the conversion of gray value [g] to float and back gives [g] *)
Definition gray_exact (g : Z) : bool :=
  match F32.to_Z (F32.of_Z g) with Some v => v =? g | None => false end.

(** ** Frames of the sensor *)

(** Modelled from the spec: [royale.hpp], which declares [royale::DepthPoint]
    and [royale::DepthData], is not part of the sources.  The spec's data model
    gives a point as x, y, z, noise (floats), a 16-bit gray value and a boolean
    depth confidence; the fields of [DepthData] are those [onNewData] copies. *)
Record DepthPoint := {
  x : float32;
  y : float32;
  z : float32;
  noise : float32;
  grayValue : Z;            (* uint16_t *)
  depthConfidence : bool
}.

Record DepthData := {
  version : Z;
  timeStamp : Z;            (* std::chrono::microseconds *)
  width : Z;                (* uint16_t *)
  height : Z;               (* uint16_t *)
  exposureTimes_ : list Z;
  points : list DepthPoint
}.

Definition wf_point (p : DepthPoint) : Prop := 0 <= grayValue p < 2 ^ 16.

(** ** ROS messages *)

Record Time := { sec : Z; nsec : Z }.

(* ros::Time::fromNSec *)
Definition fromNSec (t : Z) : Time :=
  {| sec := wrap_u32 (t / 1000000000); nsec := wrap_u32 (t mod 1000000000) |}.

Record Header := { seq : Z; stamp : Time; frame_id : string }.

Definition Header_new : Header :=
  {| seq := 0; stamp := {| sec := 0; nsec := 0 |}; frame_id := "" |}.

Record Image := {
  img_header : Header;
  img_height : Z;
  img_width : Z;
  img_encoding : string;
  img_is_bigendian : bool;
  img_step : Z;
  img_data : list Z         (* cells of the width the encoding names *)
}.

Definition Image_new : Image :=
  {| img_header := Header_new; img_height := 0; img_width := 0; img_encoding := "";
     img_is_bigendian := false; img_step := 0; img_data := [] |}.

Record PointField := { name : string; offset : Z; datatype : Z; count : Z }.

Definition FLOAT32 : Z := 7.
Definition MONO16 : string := "mono16".
Definition TYPE_32FC1 : string := "32FC1".

Record PointCloud2 := {
  pc_header : Header;
  pc_height : Z;
  pc_width : Z;
  pc_fields : list PointField;
  pc_is_bigendian : bool;
  pc_point_step : Z;
  pc_row_step : Z;
  pc_data : list Z;         (* float cells, five to a point *)
  pc_is_dense : bool
}.

Definition PointCloud2_new : PointCloud2 :=
  {| pc_header := Header_new; pc_height := 0; pc_width := 0; pc_fields := [];
     pc_is_bigendian := false; pc_point_step := 0; pc_row_step := 0; pc_data := [];
     pc_is_dense := false |}.

Record CameraInfo := {
  ci_header : Header;
  ci_height : Z;
  ci_width : Z;
  ci_distortion_model : string;
  ci_D : list double;
  ci_K : list double;
  ci_R : list double;
  ci_P : list double
}.

Definition CameraInfo_new : CameraInfo :=
  {| ci_header := Header_new; ci_height := 0; ci_width := 0; ci_distortion_model := "";
     ci_D := []; ci_K := replicate 9 (S754_zero false);
     ci_R := replicate 9 (S754_zero false); ci_P := replicate 12 (S754_zero false) |}.

(** The five messages [process] allocates once and hands to [extractData] and
    [publish] on every frame. *)
Record OutputSet := {
  msgCameraInfo : CameraInfo;
  msgCloud : PointCloud2;
  msgMono16 : Image;
  msgDepth : Image;
  msgNoise : Image
}.

Definition OutputSet_new : OutputSet :=
  {| msgCameraInfo := CameraInfo_new; msgCloud := PointCloud2_new;
     msgMono16 := Image_new; msgDepth := Image_new; msgNoise := Image_new |}.

(** ** Topics *)

Inductive Topics := CAMERA_INFO | MONO_16 | DEPTH | NOISE | CLOUD.

Definition topic_index (t : Topics) : nat :=
  match t with
  | CAMERA_INFO => 0 | MONO_16 => 1 | DEPTH => 2 | NOISE => 3 | CLOUD => 4
  end%nat.

Definition COUNT : nat := 5.

(* status[t] *)
Definition status_at (status : list bool) (t : Topics) : bool :=
  default false (status !! topic_index t).

(** ** extractData: the per-point loop *)

Definition PF_TF_OPT_FRAME : string := "_optical_frame".

(** The four byte vectors the loop writes, each seen through its iterator:
    [itCX .. itCM] walk [cloud] five cells at a time, [itD], [itN] and [itM]
    walk the other three one cell at a time. *)
Record Buffers := {
  cloud : list Z;
  depth : list Z;
  noiseImg : list Z;
  mono : list Z
}.

(* the test of line 814 *)
Definition valid (maxNoise : float32) (p : DepthPoint) : bool :=
  depthConfidence p && F32.ltb (noise p) maxNoise.

(* the body of the for statement at iteration [i], [p] being [*itI] *)
Definition extractPoint (maxNoise : float32) (i : nat) (p : DepthPoint) (b : Buffers)
  : Buffers :=
  let b1 :=
    if valid maxNoise p then
      {| cloud := <[(5 * i + 3)%nat := noise p]>
                    (<[(5 * i + 2)%nat := z p]>
                       (<[(5 * i + 1)%nat := y p]>
                          (<[(5 * i)%nat := x p]> (cloud b))));
         depth := <[i := z p]> (depth b);
         noiseImg := <[i := noise p]> (noiseImg b);
         mono := mono b |}
    else
      {| cloud := <[(5 * i + 3)%nat := F32.zero]>
                    (<[(5 * i + 2)%nat := F32.quiet_NaN]>
                       (<[(5 * i + 1)%nat := F32.quiet_NaN]>
                          (<[(5 * i)%nat := F32.quiet_NaN]> (cloud b))));
         depth := <[i := F32.quiet_NaN]> (depth b);
         noiseImg := <[i := F32.zero]> (noiseImg b);
         mono := mono b |} in
  {| cloud := <[(5 * i + 4)%nat := F32.of_Z (grayValue p)]> (cloud b1);
     depth := depth b1;
     noiseImg := noiseImg b1;
     mono := <[i := grayValue p]> (mono b1) |}.

(* for (size_t i = 0; i < data.points.size(); ++i, ++itI, ...) *)
Fixpoint extractLoop (maxNoise : float32) (pts : list DepthPoint) (i : nat) (b : Buffers)
  : Buffers :=
  match pts with
  | [] => b
  | p :: rest => extractLoop maxNoise rest (S i) (extractPoint maxNoise i p b)
  end.

(* the buffers are long enough for points [i0 .. i0 + n) *)
Definition fits (i0 n : nat) (b : Buffers) : Prop :=
  (5 * (i0 + n) <= length (cloud b))%nat
  /\ (i0 + n <= length (depth b))%nat
  /\ (i0 + n <= length (noiseImg b))%nat
  /\ (i0 + n <= length (mono b))%nat.

(* what one iteration leaves in the slot of its point *)
Record PointCells (maxNoise : float32) (p : DepthPoint) (i : nat) (b : Buffers) : Prop := {
  cell_x : cloud b !! (5 * i)%nat
           = Some (if valid maxNoise p then x p else F32.quiet_NaN);
  cell_y : cloud b !! (5 * i + 1)%nat
           = Some (if valid maxNoise p then y p else F32.quiet_NaN);
  cell_z : cloud b !! (5 * i + 2)%nat
           = Some (if valid maxNoise p then z p else F32.quiet_NaN);
  cell_noise : cloud b !! (5 * i + 3)%nat
               = Some (if valid maxNoise p then noise p else F32.zero);
  cell_intensity : cloud b !! (5 * i + 4)%nat = Some (F32.of_Z (grayValue p));
  cell_depth : depth b !! i = Some (if valid maxNoise p then z p else F32.quiet_NaN);
  cell_noiseImg : noiseImg b !! i
                  = Some (if valid maxNoise p then noise p else F32.zero);
  cell_mono : mono b !! i = Some (grayValue p)
}.

(* the five entries of msgCloud->fields *)
Definition cloudFields : list PointField :=
  [ {| name := "x"; offset := 0; datatype := FLOAT32; count := 1 |};
    {| name := "y"; offset := 4; datatype := FLOAT32; count := 1 |};
    {| name := "z"; offset := 8; datatype := FLOAT32; count := 1 |};
    {| name := "noise"; offset := 12; datatype := FLOAT32; count := 1 |};
    {| name := "intensity"; offset := 16; datatype := FLOAT32; count := 1 |} ].

(* the test of line 741, before the negation *)
Definition anyPointTopic (status : list bool) : bool :=
  status_at status MONO_16 || status_at status DEPTH
  || status_at status NOISE || status_at status CLOUD.

(** [extractData], with the members it reads ([status], [cameraInfo],
    [baseNameTF], [maxNoise]) as arguments.  [resize] is std::vector::resize:
    the cells kept from an earlier frame stay, new ones are zero. *)
Definition extractData (status : list bool) (cameraInfo : CameraInfo)
    (baseNameTF : string) (maxNoise : float32) (data : DepthData) (out : OutputSet)
  : OutputSet :=
  let header := {| seq := 0; stamp := fromNSec (timeStamp data * 1000);
                   frame_id := baseNameTF +:+ PF_TF_OPT_FRAME |} in
  let info :=
    if status_at status CAMERA_INFO then
      {| ci_header := header; ci_height := height data; ci_width := width data;
         ci_distortion_model := ci_distortion_model cameraInfo;
         ci_D := ci_D cameraInfo; ci_K := ci_K cameraInfo;
         ci_R := ci_R cameraInfo; ci_P := ci_P cameraInfo |}
    else msgCameraInfo out in
  if negb (anyPointTopic status)
  then
    {| msgCameraInfo := info; msgCloud := msgCloud out; msgMono16 := msgMono16 out;
       msgDepth := msgDepth out; msgNoise := msgNoise out |}
  else
    let n := length (points data) in
    let b := extractLoop maxNoise (points data) 0
               {| cloud := resize (5 * n) 0 (pc_data (msgCloud out));
                  depth := resize n 0 (img_data (msgDepth out));
                  noiseImg := resize n 0 (img_data (msgNoise out));
                  mono := resize n 0 (img_data (msgMono16 out)) |} in
    {| msgCameraInfo := info;
       msgCloud :=
         {| pc_header := header; pc_height := height data; pc_width := width data;
            pc_fields := cloudFields; pc_is_bigendian := false;
            pc_point_step := wrap_u32 (5 * 4);
            pc_row_step := wrap_u32 (5 * 4 * width data);
            pc_data := cloud b; pc_is_dense := false |};
       msgMono16 :=
         {| img_header := header; img_height := height data; img_width := width data;
            img_encoding := MONO16; img_is_bigendian := false;
            img_step := wrap_u32 (2 * width data); img_data := mono b |};
       msgDepth :=
         {| img_header := header; img_height := height data; img_width := width data;
            img_encoding := TYPE_32FC1; img_is_bigendian := false;
            img_step := wrap_u32 (4 * width data); img_data := depth b |};
       msgNoise :=
         {| img_header := header; img_height := height data; img_width := width data;
            img_encoding := TYPE_32FC1; img_is_bigendian := false;
            img_step := wrap_u32 (4 * width data); img_data := noiseImg b |} |}.

(** ** The camera of the royale SDK *)

Module royale.

Inductive CameraStatus := SUCCESS | RUNTIME_ERROR.
Inductive ExposureMode := MANUAL | AUTOMATIC.

(** [royale::ICameraDevice], as far as the driver calls it.  A camera is a
    value of [D]; a call that can change the camera returns the camera after
    the call. *)
Class ICameraDevice (D : Type) := {
  isCapturing : D -> bool;
  startCapture : D -> CameraStatus * D;
  stopCapture : D -> CameraStatus * D;
  getExposureMode : D -> ExposureMode;
  getExposureLimits : D -> Z * Z;                 (* Pair<uint32_t, uint32_t> *)
  setExposureTime : Z -> D -> CameraStatus * D;
  setExposureMode : ExposureMode -> D -> CameraStatus * D;
  setUseCase : string -> D -> CameraStatus * D;
  getCurrentUseCase : D -> string
}.

Definition is_success (r : CameraStatus) : bool :=
  match r with SUCCESS => true | RUNTIME_ERROR => false end.

Definition is_automatic (m : ExposureMode) : bool :=
  match m with AUTOMATIC => true | MANUAL => false end.

End royale.

(** ** Configuration *)

(* pico_flexx_driver::pico_flexx_driverConfig *)
Record Config := {
  use_case : string;
  exposure_mode : Z;        (* int: 0 automatic, 1 manual *)
  exposure_time : Z;        (* int *)
  max_noise : double;
  range_factor : double
}.

Definition set_use_case (v : string) (c : Config) : Config :=
  {| use_case := v; exposure_mode := exposure_mode c; exposure_time := exposure_time c;
     max_noise := max_noise c; range_factor := range_factor c |}.
Definition set_exposure_mode (v : Z) (c : Config) : Config :=
  {| use_case := use_case c; exposure_mode := v; exposure_time := exposure_time c;
     max_noise := max_noise c; range_factor := range_factor c |}.
Definition set_exposure_time (v : Z) (c : Config) : Config :=
  {| use_case := use_case c; exposure_mode := exposure_mode c; exposure_time := v;
     max_noise := max_noise c; range_factor := range_factor c |}.
Definition set_max_noise (v : double) (c : Config) : Config :=
  {| use_case := use_case c; exposure_mode := exposure_mode c;
     exposure_time := exposure_time c; max_noise := v; range_factor := range_factor c |}.
Definition set_range_factor (v : double) (c : Config) : Config :=
  {| use_case := use_case c; exposure_mode := exposure_mode c;
     exposure_time := exposure_time c; max_noise := max_noise c; range_factor := v |}.

(* the copies the dynamic_reconfigure server holds *)
Record Server := { srv_config : Config; srv_min : Config; srv_max : Config }.

(** ** What leaves the driver *)

Inductive CaptureRequest := StartCapture | StopCapture.

Inductive Message :=
| PubCameraInfo (m : CameraInfo)
| PubMono16 (m : Image)
| PubDepth (m : Image)
| PubNoise (m : Image)
| PubCloud (m : PointCloud2).

(** ** The driver *)

Definition startup_ignore_iters : Z := 15.
Definition dropout_allow_iters : Z := 5.

(* level & mask *)
Definition flagged (level mask : Z) : bool := negb (Z.land level mask =? 0).

Section Driver.

Context {D : Type} `{Cam : royale.ICameraDevice D}.

Record PicoFlexx := {
  cameraInfo : CameraInfo;
  status : list bool;
  config : Config;
  configMin : Config;
  configMax : Config;
  cameraDevice : D;   (* std::unique_ptr<royale::ICameraDevice> *)
  data : option DepthData;   (* std::unique_ptr<royale::DepthData>, None = null *)
  running : bool;
  newData : bool;
  frame : Z;   (* uint64_t *)
  framesPerTiming : Z;   (* uint64_t *)
  processTime : Z;   (* uint64_t *)
  delayReceived : Z;   (* uint64_t *)
  baseNameTF : string;
  startTime : Z;   (* time_point, in ns *)
  exposureTimes : list Z;   (* std::vector<uint32_t> *)
  maxNoise : float32;
  rangeFactor : double;
  iters_since_start : Z;   (* int *)
  iters_since_data : Z;   (* int *)
  ros_ok : bool;   (* ros::ok(): cleared by ros::shutdown() *)
  captureRequests : list CaptureRequest;   (* startCapture/stopCapture calls made, oldest first *)
  published : list Message;   (* messages handed to the publishers, oldest first *)
  server : Server   (* what the dynamic_reconfigure server was last told *)
}.

(* member assignments *)
Definition set_status (v : list bool) (s : PicoFlexx) : PicoFlexx :=
  {| cameraInfo := cameraInfo s; status := v; config := config s; configMin := configMin
  s; configMax := configMax s; cameraDevice := cameraDevice s; data := data s; running :=
  running s; newData := newData s; frame := frame s; framesPerTiming := framesPerTiming s;
  processTime := processTime s; delayReceived := delayReceived s; baseNameTF := baseNameTF
  s; startTime := startTime s; exposureTimes := exposureTimes s; maxNoise := maxNoise s;
  rangeFactor := rangeFactor s; iters_since_start := iters_since_start s; iters_since_data
  := iters_since_data s; ros_ok := ros_ok s; captureRequests := captureRequests s;
  published := published s; server := server s |}.
Definition set_config (v : Config) (s : PicoFlexx) : PicoFlexx :=
  {| cameraInfo := cameraInfo s; status := status s; config := v; configMin := configMin
  s; configMax := configMax s; cameraDevice := cameraDevice s; data := data s; running :=
  running s; newData := newData s; frame := frame s; framesPerTiming := framesPerTiming s;
  processTime := processTime s; delayReceived := delayReceived s; baseNameTF := baseNameTF
  s; startTime := startTime s; exposureTimes := exposureTimes s; maxNoise := maxNoise s;
  rangeFactor := rangeFactor s; iters_since_start := iters_since_start s; iters_since_data
  := iters_since_data s; ros_ok := ros_ok s; captureRequests := captureRequests s;
  published := published s; server := server s |}.
Definition set_configMin (v : Config) (s : PicoFlexx) : PicoFlexx :=
  {| cameraInfo := cameraInfo s; status := status s; config := config s; configMin := v;
  configMax := configMax s; cameraDevice := cameraDevice s; data := data s; running :=
  running s; newData := newData s; frame := frame s; framesPerTiming := framesPerTiming s;
  processTime := processTime s; delayReceived := delayReceived s; baseNameTF := baseNameTF
  s; startTime := startTime s; exposureTimes := exposureTimes s; maxNoise := maxNoise s;
  rangeFactor := rangeFactor s; iters_since_start := iters_since_start s; iters_since_data
  := iters_since_data s; ros_ok := ros_ok s; captureRequests := captureRequests s;
  published := published s; server := server s |}.
Definition set_configMax (v : Config) (s : PicoFlexx) : PicoFlexx :=
  {| cameraInfo := cameraInfo s; status := status s; config := config s; configMin :=
  configMin s; configMax := v; cameraDevice := cameraDevice s; data := data s; running :=
  running s; newData := newData s; frame := frame s; framesPerTiming := framesPerTiming s;
  processTime := processTime s; delayReceived := delayReceived s; baseNameTF := baseNameTF
  s; startTime := startTime s; exposureTimes := exposureTimes s; maxNoise := maxNoise s;
  rangeFactor := rangeFactor s; iters_since_start := iters_since_start s; iters_since_data
  := iters_since_data s; ros_ok := ros_ok s; captureRequests := captureRequests s;
  published := published s; server := server s |}.
Definition set_cameraDevice (v : D) (s : PicoFlexx) : PicoFlexx :=
  {| cameraInfo := cameraInfo s; status := status s; config := config s; configMin :=
  configMin s; configMax := configMax s; cameraDevice := v; data := data s; running :=
  running s; newData := newData s; frame := frame s; framesPerTiming := framesPerTiming s;
  processTime := processTime s; delayReceived := delayReceived s; baseNameTF := baseNameTF
  s; startTime := startTime s; exposureTimes := exposureTimes s; maxNoise := maxNoise s;
  rangeFactor := rangeFactor s; iters_since_start := iters_since_start s; iters_since_data
  := iters_since_data s; ros_ok := ros_ok s; captureRequests := captureRequests s;
  published := published s; server := server s |}.
Definition set_data (v : option DepthData) (s : PicoFlexx) : PicoFlexx :=
  {| cameraInfo := cameraInfo s; status := status s; config := config s; configMin :=
  configMin s; configMax := configMax s; cameraDevice := cameraDevice s; data := v;
  running := running s; newData := newData s; frame := frame s; framesPerTiming :=
  framesPerTiming s; processTime := processTime s; delayReceived := delayReceived s;
  baseNameTF := baseNameTF s; startTime := startTime s; exposureTimes := exposureTimes s;
  maxNoise := maxNoise s; rangeFactor := rangeFactor s; iters_since_start :=
  iters_since_start s; iters_since_data := iters_since_data s; ros_ok := ros_ok s;
  captureRequests := captureRequests s; published := published s; server := server s |}.
Definition set_running (v : bool) (s : PicoFlexx) : PicoFlexx :=
  {| cameraInfo := cameraInfo s; status := status s; config := config s; configMin :=
  configMin s; configMax := configMax s; cameraDevice := cameraDevice s; data := data s;
  running := v; newData := newData s; frame := frame s; framesPerTiming := framesPerTiming
  s; processTime := processTime s; delayReceived := delayReceived s; baseNameTF :=
  baseNameTF s; startTime := startTime s; exposureTimes := exposureTimes s; maxNoise :=
  maxNoise s; rangeFactor := rangeFactor s; iters_since_start := iters_since_start s;
  iters_since_data := iters_since_data s; ros_ok := ros_ok s; captureRequests :=
  captureRequests s; published := published s; server := server s |}.
Definition set_newData (v : bool) (s : PicoFlexx) : PicoFlexx :=
  {| cameraInfo := cameraInfo s; status := status s; config := config s; configMin :=
  configMin s; configMax := configMax s; cameraDevice := cameraDevice s; data := data s;
  running := running s; newData := v; frame := frame s; framesPerTiming := framesPerTiming
  s; processTime := processTime s; delayReceived := delayReceived s; baseNameTF :=
  baseNameTF s; startTime := startTime s; exposureTimes := exposureTimes s; maxNoise :=
  maxNoise s; rangeFactor := rangeFactor s; iters_since_start := iters_since_start s;
  iters_since_data := iters_since_data s; ros_ok := ros_ok s; captureRequests :=
  captureRequests s; published := published s; server := server s |}.
Definition set_frame (v : Z) (s : PicoFlexx) : PicoFlexx :=
  {| cameraInfo := cameraInfo s; status := status s; config := config s; configMin :=
  configMin s; configMax := configMax s; cameraDevice := cameraDevice s; data := data s;
  running := running s; newData := newData s; frame := v; framesPerTiming :=
  framesPerTiming s; processTime := processTime s; delayReceived := delayReceived s;
  baseNameTF := baseNameTF s; startTime := startTime s; exposureTimes := exposureTimes s;
  maxNoise := maxNoise s; rangeFactor := rangeFactor s; iters_since_start :=
  iters_since_start s; iters_since_data := iters_since_data s; ros_ok := ros_ok s;
  captureRequests := captureRequests s; published := published s; server := server s |}.
Definition set_processTime (v : Z) (s : PicoFlexx) : PicoFlexx :=
  {| cameraInfo := cameraInfo s; status := status s; config := config s; configMin :=
  configMin s; configMax := configMax s; cameraDevice := cameraDevice s; data := data s;
  running := running s; newData := newData s; frame := frame s; framesPerTiming :=
  framesPerTiming s; processTime := v; delayReceived := delayReceived s; baseNameTF :=
  baseNameTF s; startTime := startTime s; exposureTimes := exposureTimes s; maxNoise :=
  maxNoise s; rangeFactor := rangeFactor s; iters_since_start := iters_since_start s;
  iters_since_data := iters_since_data s; ros_ok := ros_ok s; captureRequests :=
  captureRequests s; published := published s; server := server s |}.
Definition set_delayReceived (v : Z) (s : PicoFlexx) : PicoFlexx :=
  {| cameraInfo := cameraInfo s; status := status s; config := config s; configMin :=
  configMin s; configMax := configMax s; cameraDevice := cameraDevice s; data := data s;
  running := running s; newData := newData s; frame := frame s; framesPerTiming :=
  framesPerTiming s; processTime := processTime s; delayReceived := v; baseNameTF :=
  baseNameTF s; startTime := startTime s; exposureTimes := exposureTimes s; maxNoise :=
  maxNoise s; rangeFactor := rangeFactor s; iters_since_start := iters_since_start s;
  iters_since_data := iters_since_data s; ros_ok := ros_ok s; captureRequests :=
  captureRequests s; published := published s; server := server s |}.
Definition set_startTime (v : Z) (s : PicoFlexx) : PicoFlexx :=
  {| cameraInfo := cameraInfo s; status := status s; config := config s; configMin :=
  configMin s; configMax := configMax s; cameraDevice := cameraDevice s; data := data s;
  running := running s; newData := newData s; frame := frame s; framesPerTiming :=
  framesPerTiming s; processTime := processTime s; delayReceived := delayReceived s;
  baseNameTF := baseNameTF s; startTime := v; exposureTimes := exposureTimes s; maxNoise
  := maxNoise s; rangeFactor := rangeFactor s; iters_since_start := iters_since_start s;
  iters_since_data := iters_since_data s; ros_ok := ros_ok s; captureRequests :=
  captureRequests s; published := published s; server := server s |}.
Definition set_exposureTimes (v : list Z) (s : PicoFlexx) : PicoFlexx :=
  {| cameraInfo := cameraInfo s; status := status s; config := config s; configMin :=
  configMin s; configMax := configMax s; cameraDevice := cameraDevice s; data := data s;
  running := running s; newData := newData s; frame := frame s; framesPerTiming :=
  framesPerTiming s; processTime := processTime s; delayReceived := delayReceived s;
  baseNameTF := baseNameTF s; startTime := startTime s; exposureTimes := v; maxNoise :=
  maxNoise s; rangeFactor := rangeFactor s; iters_since_start := iters_since_start s;
  iters_since_data := iters_since_data s; ros_ok := ros_ok s; captureRequests :=
  captureRequests s; published := published s; server := server s |}.
Definition set_maxNoise (v : float32) (s : PicoFlexx) : PicoFlexx :=
  {| cameraInfo := cameraInfo s; status := status s; config := config s; configMin :=
  configMin s; configMax := configMax s; cameraDevice := cameraDevice s; data := data s;
  running := running s; newData := newData s; frame := frame s; framesPerTiming :=
  framesPerTiming s; processTime := processTime s; delayReceived := delayReceived s;
  baseNameTF := baseNameTF s; startTime := startTime s; exposureTimes := exposureTimes s;
  maxNoise := v; rangeFactor := rangeFactor s; iters_since_start := iters_since_start s;
  iters_since_data := iters_since_data s; ros_ok := ros_ok s; captureRequests :=
  captureRequests s; published := published s; server := server s |}.
Definition set_rangeFactor (v : double) (s : PicoFlexx) : PicoFlexx :=
  {| cameraInfo := cameraInfo s; status := status s; config := config s; configMin :=
  configMin s; configMax := configMax s; cameraDevice := cameraDevice s; data := data s;
  running := running s; newData := newData s; frame := frame s; framesPerTiming :=
  framesPerTiming s; processTime := processTime s; delayReceived := delayReceived s;
  baseNameTF := baseNameTF s; startTime := startTime s; exposureTimes := exposureTimes s;
  maxNoise := maxNoise s; rangeFactor := v; iters_since_start := iters_since_start s;
  iters_since_data := iters_since_data s; ros_ok := ros_ok s; captureRequests :=
  captureRequests s; published := published s; server := server s |}.
Definition set_iters_since_start (v : Z) (s : PicoFlexx) : PicoFlexx :=
  {| cameraInfo := cameraInfo s; status := status s; config := config s; configMin :=
  configMin s; configMax := configMax s; cameraDevice := cameraDevice s; data := data s;
  running := running s; newData := newData s; frame := frame s; framesPerTiming :=
  framesPerTiming s; processTime := processTime s; delayReceived := delayReceived s;
  baseNameTF := baseNameTF s; startTime := startTime s; exposureTimes := exposureTimes s;
  maxNoise := maxNoise s; rangeFactor := rangeFactor s; iters_since_start := v;
  iters_since_data := iters_since_data s; ros_ok := ros_ok s; captureRequests :=
  captureRequests s; published := published s; server := server s |}.
Definition set_iters_since_data (v : Z) (s : PicoFlexx) : PicoFlexx :=
  {| cameraInfo := cameraInfo s; status := status s; config := config s; configMin :=
  configMin s; configMax := configMax s; cameraDevice := cameraDevice s; data := data s;
  running := running s; newData := newData s; frame := frame s; framesPerTiming :=
  framesPerTiming s; processTime := processTime s; delayReceived := delayReceived s;
  baseNameTF := baseNameTF s; startTime := startTime s; exposureTimes := exposureTimes s;
  maxNoise := maxNoise s; rangeFactor := rangeFactor s; iters_since_start :=
  iters_since_start s; iters_since_data := v; ros_ok := ros_ok s; captureRequests :=
  captureRequests s; published := published s; server := server s |}.
Definition set_ros_ok (v : bool) (s : PicoFlexx) : PicoFlexx :=
  {| cameraInfo := cameraInfo s; status := status s; config := config s; configMin :=
  configMin s; configMax := configMax s; cameraDevice := cameraDevice s; data := data s;
  running := running s; newData := newData s; frame := frame s; framesPerTiming :=
  framesPerTiming s; processTime := processTime s; delayReceived := delayReceived s;
  baseNameTF := baseNameTF s; startTime := startTime s; exposureTimes := exposureTimes s;
  maxNoise := maxNoise s; rangeFactor := rangeFactor s; iters_since_start :=
  iters_since_start s; iters_since_data := iters_since_data s; ros_ok := v;
  captureRequests := captureRequests s; published := published s; server := server s |}.
Definition set_captureRequests (v : list CaptureRequest) (s : PicoFlexx) : PicoFlexx :=
  {| cameraInfo := cameraInfo s; status := status s; config := config s; configMin :=
  configMin s; configMax := configMax s; cameraDevice := cameraDevice s; data := data s;
  running := running s; newData := newData s; frame := frame s; framesPerTiming :=
  framesPerTiming s; processTime := processTime s; delayReceived := delayReceived s;
  baseNameTF := baseNameTF s; startTime := startTime s; exposureTimes := exposureTimes s;
  maxNoise := maxNoise s; rangeFactor := rangeFactor s; iters_since_start :=
  iters_since_start s; iters_since_data := iters_since_data s; ros_ok := ros_ok s;
  captureRequests := v; published := published s; server := server s |}.
Definition set_published (v : list Message) (s : PicoFlexx) : PicoFlexx :=
  {| cameraInfo := cameraInfo s; status := status s; config := config s; configMin :=
  configMin s; configMax := configMax s; cameraDevice := cameraDevice s; data := data s;
  running := running s; newData := newData s; frame := frame s; framesPerTiming :=
  framesPerTiming s; processTime := processTime s; delayReceived := delayReceived s;
  baseNameTF := baseNameTF s; startTime := startTime s; exposureTimes := exposureTimes s;
  maxNoise := maxNoise s; rangeFactor := rangeFactor s; iters_since_start :=
  iters_since_start s; iters_since_data := iters_since_data s; ros_ok := ros_ok s;
  captureRequests := captureRequests s; published := v; server := server s |}.
Definition set_server (v : Server) (s : PicoFlexx) : PicoFlexx :=
  {| cameraInfo := cameraInfo s; status := status s; config := config s; configMin :=
  configMin s; configMax := configMax s; cameraDevice := cameraDevice s; data := data s;
  running := running s; newData := newData s; frame := frame s; framesPerTiming :=
  framesPerTiming s; processTime := processTime s; delayReceived := delayReceived s;
  baseNameTF := baseNameTF s; startTime := startTime s; exposureTimes := exposureTimes s;
  maxNoise := maxNoise s; rangeFactor := rangeFactor s; iters_since_start :=
  iters_since_start s; iters_since_data := iters_since_data s; ros_ok := ros_ok s;
  captureRequests := captureRequests s; published := published s; server := v |}.


(** *** Sensor callbacks *)

(* lines 207-226; [now] is the clock reading of line 209.  The copy made
   field by field is the frame itself. *)
Definition onNewData (d : DepthData) (now : Z) (s : PicoFlexx) : PicoFlexx :=
  let s1 := set_delayReceived
              (wrap_u64 (delayReceived s + (now - timeStamp d * 1000))) s in
  let copy := {| version := version d; timeStamp := timeStamp d; width := width d;
                 height := height d; exposureTimes_ := exposureTimes_ d;
                 points := points d |} in
  set_newData true (set_data (Some copy) s1).

(* lines 228-244 *)
Definition onNewExposure (newExposureTime : Z) (s : PicoFlexx) : PicoFlexx :=
  if match exposureTimes s with
     | e0 :: _ => newExposureTime =? e0
     | [] => false
     end
  then s
  else
    let s1 := set_exposureTimes [newExposureTime] s in
    let s2 := set_config (set_exposure_time (wrap_int newExposureTime) (config s1)) s1 in
    set_server {| srv_config := config s2; srv_min := srv_min (server s2);
                  srv_max := srv_max (server s2) |} s2.

(** *** callbackTopicStatus *)

(* the loop of lines 250-254 from index [i] on; [subs i] is
   publisher[i].getNumSubscribers() *)
Fixpoint scanSubscribers (subs : nat -> Z) (n i : nat) (st : list bool) (connected : bool)
  : list bool * bool :=
  match n with
  | O => (st, connected)
  | S n' =>
      let st' := <[i := 0 <? subs i]> st in
      scanSubscribers subs n' (S i) st' (connected || default false (st' !! i))
  end.

(* lines 246-284 *)
Definition callbackTopicStatus (subs : nat -> Z) (s : PicoFlexx) : PicoFlexx :=
  let '(st, clientsConnected) := scanSubscribers subs COUNT 0 (status s) false in
  let s1 := set_status st s in
  if clientsConnected && negb (royale.isCapturing (cameraDevice s1)) then
    let s2 := set_delayReceived 0 (set_frame 0 (set_processTime 0 s1)) in
    let '(r, dev) := royale.startCapture (cameraDevice s2) in
    let s3 := set_captureRequests (captureRequests s2 ++ [StartCapture])
                (set_cameraDevice dev s2) in
    if negb (royale.is_success r) then set_ros_ok false (set_running false s3) else s3
  else if negb clientsConnected && royale.isCapturing (cameraDevice s1) then
    let '(r, dev) := royale.stopCapture (cameraDevice s1) in
    let s3 := set_captureRequests (captureRequests s1 ++ [StopCapture])
                (set_cameraDevice dev s1) in
    if negb (royale.is_success r) then set_ros_ok false (set_running false s3) else s3
  else s1.

(** *** Camera settings *)

(* lines 570-574 *)
Definition setUseCase (uc : string) (s : PicoFlexx) : bool * PicoFlexx :=
  let '(_, dev) := royale.setUseCase uc (cameraDevice s) in
  (String.eqb (royale.getCurrentUseCase dev) uc, set_cameraDevice dev s).

(* lines 576-594 *)
Definition setExposureMode (automatic : bool) (s : PicoFlexx) : bool * PicoFlexx :=
  let newMode := if automatic then royale.AUTOMATIC else royale.MANUAL in
  if Bool.eqb (royale.is_automatic newMode)
              (royale.is_automatic (royale.getExposureMode (cameraDevice s)))
  then (true, s)
  else
    let '(r, dev) := royale.setExposureMode newMode (cameraDevice s) in
    (royale.is_success r, set_cameraDevice dev s).

(* lines 596-614; [exposure] is the uint32_t parameter *)
Definition setExposure (exposure : Z) (s : PicoFlexx) : bool * PicoFlexx :=
  let limits := royale.getExposureLimits (cameraDevice s) in
  if (exposure <? fst limits) || (snd limits <? exposure) then (false, s)
  else
    let '(r, dev) := royale.setExposureTime exposure (cameraDevice s) in
    (royale.is_success r, set_cameraDevice dev s).

(** *** callbackConfig

    [config] is passed by reference: the function returns it next to the
    driver.  Each block of the source is one stage; a stage either returns
    from the callback or goes on to the next block. *)

Inductive Flow :=
| Return (r : Config * PicoFlexx)
| Continue (r : Config * PicoFlexx).

Definition next (f : Flow) (k : Config -> PicoFlexx -> Flow) : Flow :=
  match f with
  | Return r => Return r
  | Continue (c, s) => k c s
  end.

Definition finish (f : Flow) : Config * PicoFlexx :=
  match f with Return r => r | Continue r => r end.

(* lines 293-302 *)
Definition reconfigureUseCase (level : Z) (c : Config) (s : PicoFlexx) : Flow :=
  if flagged level 0x01 then
    let '(ok, s1) := setUseCase (use_case c) s in
    if negb ok then Return (set_use_case (use_case (config s1)) c, s1)
    else Continue (c, set_config (set_use_case (use_case c) (config s1)) s1)
  else Continue (c, s).

(* lines 304-313 *)
Definition reconfigureExposureMode (level : Z) (c : Config) (s : PicoFlexx) : Flow :=
  if flagged level 0x02 then
    let '(ok, s1) := setExposureMode (exposure_mode c =? 0) s in
    if negb ok then Return (set_exposure_mode (exposure_mode (config s1)) c, s1)
    else Continue (c, set_config (set_exposure_mode (exposure_mode c) (config s1)) s1)
  else Continue (c, s).

(* lines 315-324; [||] does not call setExposure in automatic mode *)
Definition reconfigureExposureTime (level : Z) (c : Config) (s : PicoFlexx) : Flow :=
  if flagged level 0x04 then
    if royale.is_automatic (royale.getExposureMode (cameraDevice s))
    then Return (set_exposure_time (exposure_time (config s)) c, s)
    else
      let '(ok, s1) := setExposure (wrap_u32 (exposure_time c)) s in
      if negb ok then Return (set_exposure_time (exposure_time (config s1)) c, s1)
      else Continue (c, set_config (set_exposure_time (exposure_time c) (config s1)) s1)
  else Continue (c, s).

(* lines 326-333 *)
Definition reconfigureMaxNoise (level : Z) (c : Config) (s : PicoFlexx) : Flow :=
  if flagged level 0x08 then
    Continue (c, set_config (set_max_noise (max_noise c) (config s))
                   (set_maxNoise (F32.of_double (max_noise c)) s))
  else Continue (c, s).

(* lines 335-342 *)
Definition reconfigureRangeFactor (level : Z) (c : Config) (s : PicoFlexx) : Flow :=
  if flagged level 0x10 then
    Continue (c, set_config (set_range_factor (range_factor c) (config s))
                   (set_rangeFactor (F32.to_double (F32.of_double (range_factor c))) s))
  else Continue (c, s).

(* lines 344-351 *)
Definition refreshLimits (level : Z) (c : Config) (s : PicoFlexx) : Flow :=
  if flagged level 0x01 || flagged level 0x02 then
    let limits := royale.getExposureLimits (cameraDevice s) in
    let s1 := set_configMin (set_exposure_time (wrap_int (fst limits)) (configMin s)) s in
    let s2 := set_configMax (set_exposure_time (wrap_int (snd limits)) (configMax s1)) s1 in
    Continue (c, set_server {| srv_config := srv_config (server s2);
                               srv_min := configMin s2; srv_max := configMax s2 |} s2)
  else Continue (c, s).

(* the blocks of lines 293-324, up to and including the exposure_mode block *)
Definition reconfigureDevice (level : Z) (c : Config) (s : PicoFlexx) : Flow :=
  next (reconfigureUseCase level c s) (reconfigureExposureMode level).

(* lines 286-352 *)
Definition callbackConfig (c : Config) (level : Z) (s : PicoFlexx) : Config * PicoFlexx :=
  if level =? 0xFFFFFFFF then (c, s)
  else
    finish
      (next (next (next (next (reconfigureDevice level c s)
                           (reconfigureExposureTime level))
                     (reconfigureMaxNoise level))
               (reconfigureRangeFactor level))
         (refreshLimits level)).

(** *** Liveness *)

(* lines 355-360 *)
Definition isCurrent (s : PicoFlexx) : bool :=
  (iters_since_data s <? dropout_allow_iters)
  || (iters_since_start s <? startup_ignore_iters).


(** *** publish and timings *)

(* lines 837-869 *)
Definition publish (s : PicoFlexx) (out : OutputSet) : PicoFlexx * OutputSet :=
  let '(p1, info) :=
    if status_at (status s) CAMERA_INFO
    then ([PubCameraInfo (msgCameraInfo out)], CameraInfo_new)
    else ([], msgCameraInfo out) in
  let '(p2, m16) :=
    if status_at (status s) MONO_16
    then ([PubMono16 (msgMono16 out)], Image_new) else ([], msgMono16 out) in
  let '(p3, dep) :=
    if status_at (status s) DEPTH
    then ([PubDepth (msgDepth out)], Image_new) else ([], msgDepth out) in
  let '(p4, noi) :=
    if status_at (status s) NOISE
    then ([PubNoise (msgNoise out)], Image_new) else ([], msgNoise out) in
  let '(p5, cld) :=
    if status_at (status s) CLOUD
    then ([PubCloud (msgCloud out)], PointCloud2_new) else ([], msgCloud out) in
  (set_published (published s ++ p1 ++ p2 ++ p3 ++ p4 ++ p5) s,
   {| msgCameraInfo := info; msgCloud := cld; msgMono16 := m16; msgDepth := dep;
      msgNoise := noi |}).

(* lines 871-895; the averages computed at a window boundary are only logged *)
Definition timings (now : Z) (s : PicoFlexx) : PicoFlexx :=
  let s1 :=
    if frame s =? 0 then set_startTime now s
    else if frame s mod framesPerTiming s =? 0
         then set_delayReceived 0 (set_startTime now (set_processTime 0 s))
         else s in
  set_frame (wrap_u64 (frame s1 + 1)) s1.

(** *** process

    The locals of [process] that live across iterations.  One iteration has
    three critical sections: the loop test and the start-up counter (lock
    held from the previous iteration), the end of [wait_for] with the take
    (under [lockData]), and extraction with publication (under
    [lockStatus], then [lockTiming]). *)

Record Locals := {
  l_data : option DepthData;   (* std::unique_ptr<royale::DepthData> data *)
  l_msgs : OutputSet;
  l_start : Z                  (* time_point start *)
}.

(* lines 673-682 *)
Definition Locals_new : Locals :=
  {| l_data := None; l_msgs := OutputSet_new; l_start := 0 |}.

Inductive WaitResult := TimedOut | Taken.

(* line 686 *)
Definition process_guard (s : PicoFlexx) : bool := running s && ros_ok s.

(* lines 688-692 *)
Definition process_tick (s : PicoFlexx) : PicoFlexx :=
  if iters_since_start s <=? startup_ignore_iters
  then set_iters_since_start (wrap_int (iters_since_start s + 1)) s
  else s.

(* lines 694-707.  [wait_for] with a predicate returns the predicate's value
   when it stops waiting: [false] only when the 300 ms have passed and
   [newData] is still clear.  [now] is the clock reading of line 704. *)
Definition process_wait (now : Z) (s : PicoFlexx) (l : Locals)
  : PicoFlexx * Locals * WaitResult :=
  if negb (newData s) then
    (set_iters_since_data (wrap_int (iters_since_data s + 1)) s, l, TimedOut)
  else
    let s1 := set_iters_since_data 0 s in
    (* this->data.swap(data) *)
    let l1 := {| l_data := data s1; l_msgs := l_msgs l; l_start := now |} in
    let s2 := set_data (l_data l) s1 in
    (set_newData false s2, l1, Taken).

(* lines 709-719.  [*data] on a null pointer has no defined behaviour; the
   model leaves everything as it is there, and [slot_invariant] shows that
   the loop never gets there. *)
Definition process_frame (end_ now : Z) (s : PicoFlexx) (l : Locals)
  : PicoFlexx * Locals :=
  match l_data l with
  | None => (s, l)
  | Some d =>
      let out := extractData (status s) (cameraInfo s) (baseNameTF s) (maxNoise s) d
                   (l_msgs l) in
      let '(s1, out1) := publish s out in
      let s2 := set_processTime (wrap_u64 (processTime s1 + (end_ - l_start l))) s1 in
      (timings now s2, {| l_data := l_data l; l_msgs := out1; l_start := l_start l |})
  end.

(* the three clock readings of one iteration: lines 704, 714 and 873 *)
Record Clock := { t_start : Z; t_end : Z; t_timings : Z }.

(* the body of the while statement, run without interruption; the result
   names the frame handed to extractData, if any *)
Definition process_iteration (c : Clock) (s : PicoFlexx) (l : Locals)
  : PicoFlexx * Locals * option DepthData :=
  let '(s1, l1, r) := process_wait (t_start c) (process_tick s) l in
  match r with
  | TimedOut => (s1, l1, None)
  | Taken =>
      let '(s2, l2) := process_frame (t_end c) (t_timings c) s1 l1 in
      (s2, l2, l_data l1)
  end.

(* lines 686-722, one iteration per clock given; the frames handed to
   extractData, oldest first *)
Fixpoint process (cs : list Clock) (s : PicoFlexx) (l : Locals)
  : PicoFlexx * Locals * list DepthData :=
  match cs with
  | [] => (s, l, [])
  | c :: rest =>
      if process_guard s then
        let '(s1, l1, o) := process_iteration c s l in
        let '(s2, l2, fs) := process rest s1 l1 in
        (s2, l2, option_list o ++ fs)
      else (s, l, [])
  end.

(** *** The threads together

    The callbacks run on threads of the SDK and of the middleware, [process]
    on its own thread.  An execution is a sequence of events, each one a
    callback or the next critical section of [process]. *)

Inductive PC := AtGuard | AtWait | AtFrame | Exited.

Record Sys := { drv : PicoFlexx; loc : Locals; pc : PC }.

Inductive Event :=
| EvNewData (d : DepthData) (now : Z)
| EvNewExposure (e : Z)
| EvTopicStatus (subs : nat -> Z)
| EvConfig (c : Config) (level : Z)
| EvProcess (c : Clock).

Definition step (ev : Event) (σ : Sys) : Sys :=
  match ev with
  | EvNewData d now => {| drv := onNewData d now (drv σ); loc := loc σ; pc := pc σ |}
  | EvNewExposure e => {| drv := onNewExposure e (drv σ); loc := loc σ; pc := pc σ |}
  | EvTopicStatus subs =>
      {| drv := callbackTopicStatus subs (drv σ); loc := loc σ; pc := pc σ |}
  | EvConfig c level =>
      {| drv := snd (callbackConfig c level (drv σ)); loc := loc σ; pc := pc σ |}
  | EvProcess c =>
      match pc σ with
      | AtGuard =>
          if process_guard (drv σ)
          then {| drv := process_tick (drv σ); loc := loc σ; pc := AtWait |}
          else {| drv := drv σ; loc := loc σ; pc := Exited |}
      | AtWait =>
          let '(s, l, r) := process_wait (t_start c) (drv σ) (loc σ) in
          {| drv := s; loc := l;
             pc := match r with Taken => AtFrame | TimedOut => AtGuard end |}
      | AtFrame =>
          let '(s, l) := process_frame (t_end c) (t_timings c) (drv σ) (loc σ) in
          {| drv := s; loc := l; pc := AtGuard |}
      | Exited => σ
      end
  end.

Definition run (evs : list Event) (σ : Sys) : Sys := foldl (fun σ ev => step ev σ) σ evs.

(* what the constructor (lines 153-160), initialize (lines 444-445) and start
   (line 191) leave behind, as far as the loop and the callbacks read it *)
Definition started (σ : Sys) : Prop :=
  pc σ = AtGuard
  /\ loc σ = Locals_new
  /\ running (drv σ) = true
  /\ newData (drv σ) = false
  /\ data (drv σ) = None
  /\ length (status (drv σ)) = COUNT
  /\ iters_since_start (drv σ) = 0
  /\ iters_since_data (drv σ) = 0.

Inductive reachable : Sys -> Prop :=
| reachable_started σ : started σ -> reachable σ
| reachable_step σ ev : reachable σ -> reachable (step ev σ).

Definition is_deposit (ev : Event) : bool :=
  match ev with EvNewData _ _ => true | _ => false end.

(* the event ends a wait of the loop with a frame *)
Definition takes (ev : Event) (σ : Sys) : bool :=
  match ev, pc σ with
  | EvProcess _, AtWait => newData (drv σ)
  | _, _ => false
  end.

(* what the loop finds in the slot at each take of an execution, oldest first *)
Fixpoint observed (evs : list Event) (σ : Sys) : list (option DepthData) :=
  match evs with
  | [] => []
  | ev :: rest =>
      (if takes ev σ then [data (drv σ)] else []) ++ observed rest (step ev σ)
  end.

(* nothing is deposited and nothing is taken *)
Definition quiet (evs : list Event) (σ : Sys) : Prop :=
  Forall (fun ev => is_deposit ev = false) evs /\ observed evs σ = [].

(* the members only the loop and initialize write, and the size of status *)
Definition same_loop_state (s s' : PicoFlexx) : Prop :=
  data s' = data s
  /\ newData s' = newData s
  /\ iters_since_start s' = iters_since_start s
  /\ iters_since_data s' = iters_since_data s
  /\ length (status s') = length (status s).

(* the proposal is outside the limits the camera reports *)
Definition outside_limits (e : Z) (dev : D) : Prop :=
  e < fst (royale.getExposureLimits dev) \/ snd (royale.getExposureLimits dev) < e.

(* a stage of callbackConfig that keeps the loop's members *)
Definition stage_same (k : Config -> PicoFlexx -> Flow) : Prop :=
  forall c s, same_loop_state s (snd (finish (k c s))).

(* what holds of every reachable state *)
Definition slot_invariant (σ : Sys) : Prop :=
  (newData (drv σ) = true -> is_Some (data (drv σ)))
  /\ (pc σ = AtFrame -> is_Some (l_data (loc σ)))
  /\ length (status (drv σ)) = COUNT
  /\ 0 <= iters_since_start (drv σ) <= startup_ignore_iters + 1.

End Driver.

Arguments PicoFlexx D : clear implicits.
Arguments Sys D : clear implicits.

(** ** A simulated camera

    A camera that accepts every setting, whose exposure limits depend on the
    use case, and whose capture requests fail when it is [sim_broken].  The
    examples below run the driver on it. *)

Record SimCamera := {
  sim_capturing : bool;
  sim_mode : royale.ExposureMode;
  sim_use_case : string;
  sim_exposure : Z;
  sim_broken : bool
}.

Definition sim_limits (uc : string) : Z * Z :=
  if String.eqb uc "MODE_5_45FPS_500" then (50, 500) else (50, 2000).

#[export] Instance SimCamera_device : royale.ICameraDevice SimCamera := {|
  royale.isCapturing c := sim_capturing c;
  royale.startCapture c :=
    if sim_broken c then (royale.RUNTIME_ERROR, c)
    else (royale.SUCCESS,
          {| sim_capturing := true; sim_mode := sim_mode c; sim_use_case := sim_use_case c;
             sim_exposure := sim_exposure c; sim_broken := sim_broken c |});
  royale.stopCapture c :=
    if sim_broken c then (royale.RUNTIME_ERROR, c)
    else (royale.SUCCESS,
          {| sim_capturing := false; sim_mode := sim_mode c; sim_use_case := sim_use_case c;
             sim_exposure := sim_exposure c; sim_broken := sim_broken c |});
  royale.getExposureMode c := sim_mode c;
  royale.getExposureLimits c := sim_limits (sim_use_case c);
  royale.setExposureTime e c :=
    (royale.SUCCESS,
     {| sim_capturing := sim_capturing c; sim_mode := sim_mode c;
        sim_use_case := sim_use_case c; sim_exposure := e; sim_broken := sim_broken c |});
  royale.setExposureMode m c :=
    (royale.SUCCESS,
     {| sim_capturing := sim_capturing c; sim_mode := m; sim_use_case := sim_use_case c;
        sim_exposure := sim_exposure c; sim_broken := sim_broken c |});
  royale.setUseCase uc c :=
    (royale.SUCCESS,
     {| sim_capturing := sim_capturing c; sim_mode := sim_mode c; sim_use_case := uc;
        sim_exposure := sim_exposure c; sim_broken := sim_broken c |});
  royale.getCurrentUseCase c := sim_use_case c
|}.

(* 0.07, 0.10, 2.0 and 7.0 as doubles *)
Definition d_0_07 : double := S754_finite false 5044031582654956 (-56).
Definition d_0_10 : double := S754_finite false 7205759403792794 (-56).
Definition d_2_0 : double := S754_finite false 4503599627370496 (-51).
Definition d_7_0 : double := S754_finite false 7881299347898368 (-50).
Definition d_0_0 : double := S754_zero false.

(* the driver after start() on a simulated camera in use case [uc] and
   exposure mode [mode], exposure time [e] *)
Definition example_config (uc : string) (mode e : Z) : Config :=
  {| use_case := uc; exposure_mode := mode; exposure_time := e; max_noise := d_0_07;
     range_factor := d_2_0 |}.

Definition example_camera (uc : string) (mode : royale.ExposureMode) (e : Z) (broken : bool)
  : SimCamera :=
  {| sim_capturing := false; sim_mode := mode; sim_use_case := uc; sim_exposure := e;
     sim_broken := broken |}.

Definition example_driver (cam : SimCamera) : PicoFlexx SimCamera :=
  let mode := if royale.is_automatic (sim_mode cam) then 0 else 1 in
  let cfg := example_config (sim_use_case cam) mode (sim_exposure cam) in
  let lo := {| use_case := "MODE_9_5FPS_2000"; exposure_mode := 0;
               exposure_time := fst (sim_limits (sim_use_case cam));
               max_noise := d_0_0; range_factor := d_0_0 |} in
  let hi := {| use_case := "MODE_9_5FPS_2000"; exposure_mode := 1;
               exposure_time := snd (sim_limits (sim_use_case cam));
               max_noise := d_0_10; range_factor := d_7_0 |} in
  {| cameraInfo := CameraInfo_new; status := replicate COUNT false; config := cfg;
     configMin := lo; configMax := hi; cameraDevice := cam; data := None;
     running := true; newData := false; frame := 0; framesPerTiming := 25;
     processTime := 0; delayReceived := 0; baseNameTF := "pico_flexx"; startTime := 0;
     exposureTimes := []; maxNoise := F32.of_double d_0_07;
     rangeFactor := F32.to_double (F32.of_double d_2_0); iters_since_start := 0;
     iters_since_data := 0; ros_ok := true; captureRequests := []; published := [];
     server := {| srv_config := cfg; srv_min := lo; srv_max := hi |} |}.

Definition example_sys (cam : SimCamera) : Sys SimCamera :=
  {| drv := example_driver cam; loc := Locals_new; pc := AtGuard |}.

Definition clock0 : Clock := {| t_start := 0; t_end := 0; t_timings := 0 |}.

Definition clean_point : DepthPoint :=
  {| x := 0x3f800000; y := 0x40000000; z := 0x40400000; noise := 0x3c23d70a;
     grayValue := 100; depthConfidence := true |}.

Definition noisy_point : DepthPoint :=
  {| x := 0; y := 0; z := 0; noise := 0x3f000000; grayValue := 50;
     depthConfidence := true |}.

(* the frame of the end-to-end scenario: two points, the second too noisy
   (1.0f, 2.0f, 3.0f, 0.01f, 0.5f as bit patterns) *)
Definition example_frame : DepthData :=
  {| version := 1; timeStamp := 1000; width := 2; height := 1; exposureTimes_ := [1000];
     points := [clean_point; noisy_point] |}.

(* a later frame of the same size *)
Definition example_frame2 : DepthData :=
  {| version := 1; timeStamp := 106000; width := 2; height := 1;
     exposureTimes_ := [1000]; points := [noisy_point; clean_point] |}.

Definition all_subscribed : list bool := replicate COUNT true.
Definition info_only : list bool := [true; false; false; false; false].

(* one subscriber on the depth topic, none elsewhere *)
Definition depth_subscriber (i : nat) : Z := if (i =? 2)%nat then 1 else 0.

Definition cam_auto : SimCamera :=
  example_camera "MODE_9_5FPS_2000" royale.AUTOMATIC 1000 false.
Definition cam_broken : SimCamera :=
  example_camera "MODE_9_5FPS_2000" royale.AUTOMATIC 1000 true.
Definition cam_manual : SimCamera :=
  example_camera "MODE_5_45FPS_500" royale.MANUAL 300 false.

(* the driver on [cam_manual] after a reconfiguration that changes the use
   case and proposes an exposure time no use case allows: the callback
   returns at line 321, before the limits are read again at line 346 *)
Definition stale_limits_driver : PicoFlexx SimCamera :=
  snd (callbackConfig (example_config "MODE_9_5FPS_2000" 1 5000) 0x05
         (example_driver cam_manual)).

(* the loop of [cam_auto]'s driver, waiting *)
Definition waiting_sys : Sys SimCamera := step (EvProcess clock0) (example_sys cam_auto).



(** ** More of the driver *)

(** *** What extractData writes, point by point *)

(* the header of lines 728-731 *)
Definition frameHeader (baseNameTF : string) (d : DepthData) : Header :=
  {| seq := 0; stamp := fromNSec (timeStamp d * 1000);
     frame_id := baseNameTF +:+ PF_TF_OPT_FRAME |}.

(* the five cells lines 816-819, 825-828 and 832 leave in the record of a point *)
Definition cloudRecord (maxNoise : float32) (p : DepthPoint) : list Z :=
  if valid maxNoise p
  then [x p; y p; z p; noise p; F32.of_Z (grayValue p)]
  else [F32.quiet_NaN; F32.quiet_NaN; F32.quiet_NaN; F32.zero; F32.of_Z (grayValue p)].

(* the cell lines 820 and 829 leave in the depth image *)
Definition depthCell (maxNoise : float32) (p : DepthPoint) : Z :=
  if valid maxNoise p then z p else F32.quiet_NaN.

(* the cell lines 821 and 830 leave in the noise image *)
Definition noiseCell (maxNoise : float32) (p : DepthPoint) : Z :=
  if valid maxNoise p then noise p else F32.zero.

(* the header a published message carries *)
Definition msg_header (m : Message) : Header :=
  match m with
  | PubCameraInfo m => ci_header m
  | PubMono16 m => img_header m
  | PubDepth m => img_header m
  | PubNoise m => img_header m
  | PubCloud m => pc_header m
  end.

(* the topic a published message went out on *)
Definition msg_topic (m : Message) : Topics :=
  match m with
  | PubCameraInfo _ => CAMERA_INFO
  | PubMono16 _ => MONO_16
  | PubDepth _ => DEPTH
  | PubNoise _ => NOISE
  | PubCloud _ => CLOUD
  end.

(** *** createCameraInfo *)

(** Modelled from the spec: [royale::LensParameters] is declared in
    [royale.hpp], which is not part of the sources.  The spec names focal
    length, principal point, and radial and tangential distortion; the members
    are those createCameraInfo reads, floats as in the SDK. *)
Record LensParameters := {
  principalPoint : float32 * float32;
  focalLength : float32 * float32;
  distortionTangential : float32 * float32;
  distortionRadial : list float32
}.

(* the two getters of the camera that only the camera info needs *)
Class ISensorSize (D : Type) := {
  getMaxSensorWidth : D -> Z;     (* uint16_t *)
  getMaxSensorHeight : D -> Z     (* uint16_t *)
}.

(* 0 and 1 as doubles *)
Definition d_zero : double := S754_zero false.
Definition d_one : double := S754_finite false 4503599627370496 (-52).

Definition set_cameraInfo {D : Type} (v : CameraInfo) (s : PicoFlexx D) : PicoFlexx D :=
  {| cameraInfo := v; status := status s; config := config s; configMin := configMin s;
     configMax := configMax s; cameraDevice := cameraDevice s; data := data s;
     running := running s; newData := newData s; frame := frame s;
     framesPerTiming := framesPerTiming s; processTime := processTime s;
     delayReceived := delayReceived s; baseNameTF := baseNameTF s;
     startTime := startTime s; exposureTimes := exposureTimes s; maxNoise := maxNoise s;
     rangeFactor := rangeFactor s; iters_since_start := iters_since_start s;
     iters_since_data := iters_since_data s; ros_ok := ros_ok s;
     captureRequests := captureRequests s; published := published s;
     server := server s |}.

(* distortionRadial[i]; reading past the end does not happen below *)
Definition radial (params : LensParameters) (i : nat) : double :=
  F32.to_double (default 0 (distortionRadial params !! i)).

(* lines 616-669 *)
Definition createCameraInfo {D : Type} `{ISensorSize D} (params : LensParameters)
    (s : PicoFlexx D) : bool * PicoFlexx D :=
  if negb (length (distortionRadial params) =? 3)%nat then (false, s)
  else
    let fx := F32.to_double (fst (focalLength params)) in
    let fy := F32.to_double (snd (focalLength params)) in
    let cx := F32.to_double (fst (principalPoint params)) in
    let cy := F32.to_double (snd (principalPoint params)) in
    (true,
     set_cameraInfo
       {| ci_header := ci_header (cameraInfo s);
          ci_height := getMaxSensorHeight (cameraDevice s);
          ci_width := getMaxSensorWidth (cameraDevice s);
          ci_distortion_model := "plumb_bob";
          ci_D := [radial params 0; radial params 1;
                   F32.to_double (fst (distortionTangential params));
                   F32.to_double (snd (distortionTangential params));
                   radial params 2];
          ci_K := [fx; d_zero; cx; d_zero; fy; cy; d_zero; d_zero; d_one];
          ci_R := [d_one; d_zero; d_zero; d_zero; d_one; d_zero; d_zero; d_zero; d_one];
          ci_P := [fx; d_zero; cx; d_zero; d_zero; fy; cy; d_zero; d_zero; d_zero;
                   d_one; d_zero] |} s).

#[export] Instance SimCamera_size : ISensorSize SimCamera := {|
  getMaxSensorWidth _ := 224;
  getMaxSensorHeight _ := 171
|}.

(** *** selectCamera, up to the choice of the camera *)

(* the loop of lines 481-492 from position [i] on, [index] being the index so far *)
Fixpoint scanCameras (_id : string) (camlist : list string) (i : nat) (index : Z) : Z :=
  match camlist with
  | [] => index
  | cam :: rest =>
      scanCameras _id rest (S i)
        (if String.eqb _id cam then wrap_int (Z.of_nat i) else index)
  end.

Inductive Selection :=
| NoCameras                 (* line 470 *)
| NotFound (_id : string)   (* line 497 *)
| Selected (index : Z).     (* line 499: createCamera(camlist[index]) *)

(* lines 463-499: which camera of the connected ones is created *)
Definition selectCamera_index (id : string) (camlist : list string) : Selection :=
  match camlist with
  | [] => NoCameras
  | first :: _ =>
      let _id := if String.eqb id "" then first else id in
      let index := scanCameras _id camlist 0 (-1) in
      if index <? 0 then NotFound _id else Selected index
  end.

(** *** Executions *)

(* the frames an execution deposits, oldest first *)
Definition deposited (evs : list Event) : list DepthData :=
  flat_map (fun ev => match ev with EvNewData d _ => [d] | _ => [] end) evs.

(* the topics in the order of the enumeration *)
Definition all_topics : list Topics := [CAMERA_INFO; MONO_16; DEPTH; NOISE; CLOUD].

(* the members a reconfiguration has no business with *)
Definition loop_untouched {D : Type} (s s' : PicoFlexx D) : Prop :=
  data s' = data s /\ newData s' = newData s
  /\ iters_since_start s' = iters_since_start s
  /\ iters_since_data s' = iters_since_data s
  /\ status s' = status s
  /\ running s' = running s /\ ros_ok s' = ros_ok s
  /\ captureRequests s' = captureRequests s
  /\ published s' = published s.

(* what is in the slot and not yet taken *)
Definition pending {D : Type} (σ : Sys D) : list DepthData :=
  if newData (drv σ) then option_list (data (drv σ)) else [].

(* one call of onNewData per frame and clock reading, in order *)
Definition deposit_all {D : Type} (ds : list (DepthData * Z)) (s : PicoFlexx D)
  : PicoFlexx D :=
  foldl (fun s dn => onNewData (fst dn) (snd dn) s) s ds.

(* the reception delays of a list of deposits, added up *)
Definition total_delay (ds : list (DepthData * Z)) : Z :=
  foldr (fun dn acc => (snd dn - timeStamp (fst dn) * 1000) + acc) 0 ds.

(** *** More examples *)

(* a camera whose use case cannot be changed *)
Record LockedCamera := { locked : SimCamera }.

#[export] Instance LockedCamera_device : royale.ICameraDevice LockedCamera := {|
  royale.isCapturing c := royale.isCapturing (locked c);
  royale.startCapture c :=
    (fst (royale.startCapture (locked c)),
     {| locked := snd (royale.startCapture (locked c)) |});
  royale.stopCapture c :=
    (fst (royale.stopCapture (locked c)),
     {| locked := snd (royale.stopCapture (locked c)) |});
  royale.getExposureMode c := royale.getExposureMode (locked c);
  royale.getExposureLimits c := royale.getExposureLimits (locked c);
  royale.setExposureTime e c :=
    (fst (royale.setExposureTime e (locked c)),
     {| locked := snd (royale.setExposureTime e (locked c)) |});
  royale.setExposureMode m c :=
    (fst (royale.setExposureMode m (locked c)),
     {| locked := snd (royale.setExposureMode m (locked c)) |});
  royale.setUseCase uc c := (royale.RUNTIME_ERROR, c);
  royale.getCurrentUseCase c := royale.getCurrentUseCase (locked c)
|}.

(* the driver of [example_driver] on a locked camera *)
Definition locked_driver (cam : SimCamera) : PicoFlexx LockedCamera :=
  let s := example_driver cam in
  {| cameraInfo := cameraInfo s; status := status s; config := config s;
     configMin := configMin s; configMax := configMax s;
     cameraDevice := {| locked := cam |}; data := data s; running := running s;
     newData := newData s; frame := frame s; framesPerTiming := framesPerTiming s;
     processTime := processTime s; delayReceived := delayReceived s;
     baseNameTF := baseNameTF s; startTime := startTime s;
     exposureTimes := exposureTimes s; maxNoise := maxNoise s;
     rangeFactor := rangeFactor s; iters_since_start := iters_since_start s;
     iters_since_data := iters_since_data s; ros_ok := ros_ok s;
     captureRequests := captureRequests s; published := published s;
     server := server s |}.

(* a lens with three radial coefficients (bit patterns of 210.0f, 115.0f, 85.0f,
   0.25f, -0.5f, 0.125f and of 0.0f for the tangential pair) *)
Definition example_lens : LensParameters :=
  {| principalPoint := (0x42e60000, 0x42aa0000);
     focalLength := (0x43520000, 0x43520000);
     distortionTangential := (0, 0);
     distortionRadial := [0x3e800000; 0xbf000000; 0x3e000000] |}.

(* three connected cameras, two of them with the id of the first *)
Definition example_cameras : list string := ["0005-1203"; "0007-0455"; "0005-1203"].

(* the driver of [cam_auto] with a subscriber on the depth topic *)
Definition depth_driver : PicoFlexx SimCamera :=
  callbackTopicStatus depth_subscriber (example_driver cam_auto).

(* the locals of the loop after it took [example_frame] *)
Definition example_locals : Locals :=
  {| l_data := Some example_frame; l_msgs := OutputSet_new; l_start := 0 |}.

(* the messages of the loop after a frame went through them *)
Definition used_messages : OutputSet :=
  extractData all_subscribed CameraInfo_new "pico_flexx" (F32.of_double d_0_07)
    example_frame2 OutputSet_new.

Definition example_deposits : list (DepthData * Z) :=
  [(example_frame, 1500); (example_frame2, 106500)].

(** * Properties *)

(** ** Floats *)

Lemma quiet_NaN_is_nan : F32.is_nan F32.quiet_NaN = true.
Proof. reflexivity. Qed.

Lemma zero_is_zero : F32.decode F32.zero = S754_zero false.
Proof. reflexivity. Qed.

(* a NaN is below nothing and nothing is below a NaN *)
Lemma ltb_nan_l a b : F32.is_nan a = true -> F32.ltb a b = false.
Proof.
  unfold F32.is_nan, F32.ltb. destruct (F32.decode a); try discriminate. reflexivity.
Qed.

Lemma ltb_nan_r a b : F32.is_nan b = true -> F32.ltb a b = false.
Proof.
  unfold F32.is_nan, F32.ltb. destruct (F32.decode b); try discriminate.
  destruct (F32.decode a); reflexivity.
Qed.

Lemma SFcompare_antisym a b : SFcompare b a = option_map CompOpp (SFcompare a b).
Proof.
  destruct a as [sa | sa | | sa ma ea], b as [sb | sb | | sb mb eb]; simpl;
    try reflexivity; try (destruct sa; reflexivity); try (destruct sb; reflexivity);
    try (destruct sa, sb; reflexivity).
  destruct sa, sb; simpl; try reflexivity; rewrite (Z.compare_antisym ea eb);
    destruct (ea ?= eb) eqn:He; simpl; try reflexivity;
    change (Pos.compare_cont Eq mb ma) with (Pos.compare_cont (CompOpp Eq) mb ma);
    rewrite <- (Pos.compare_cont_antisym ma mb Eq);
    destruct (Pos.compare_cont Eq ma mb); reflexivity.
Qed.

(* noise >= maxNoise makes noise < maxNoise false *)
Lemma leb_not_ltb a b : F32.leb b a = true -> F32.ltb a b = false.
Proof.
  unfold F32.leb, F32.ltb, SFleb, SFltb. rewrite (SFcompare_antisym (F32.decode a)).
  destruct (SFcompare (F32.decode a) (F32.decode b)) as [[] |]; simpl;
    congruence.
Qed.

(* the points line 814 rejects: no confidence, noise not below maxNoise (at
   or above it, or one of the two a NaN) *)
Lemma valid_false_iff maxNoise p :
  valid maxNoise p = false
  <-> depthConfidence p = false \/ F32.ltb (noise p) maxNoise = false.
Proof. unfold valid. apply andb_false_iff. Qed.

Lemma valid_false_cases maxNoise p :
  depthConfidence p = false \/ F32.leb maxNoise (noise p) = true ->
  valid maxNoise p = false.
Proof.
  intros [H | H]; apply valid_false_iff; [left; exact H | right].
  apply leb_not_ltb, H.
Qed.

Lemma all_below_spec n P : forall b g,
  all_below n P b = true -> b * 2 ^ Z.of_nat n <= g < (b + 1) * 2 ^ Z.of_nat n -> P g = true.
Proof.
  induction n as [| k IH]; intros b g H Hg.
  - simpl in *. replace g with b by lia. exact H.
  - simpl in H. apply andb_prop in H as [H0 H1].
    replace (Z.of_nat (S k)) with (Z.of_nat k + 1) in Hg by lia.
    rewrite Z.pow_add_r, Z.pow_1_r in Hg by lia.
    destruct (Z.lt_ge_cases g ((2 * b + 1) * 2 ^ Z.of_nat k)).
    + apply (IH (2 * b)); [exact H0 | lia].
    + apply (IH (2 * b + 1)); [exact H1 | lia].
Qed.

Lemma gray_exact_all : all_below 16 gray_exact 0 = true.
Proof. vm_compute. reflexivity. Qed.

Lemma of_Z_exact g : 0 <= g < 2 ^ 16 -> F32.to_Z (F32.of_Z g) = Some g.
Proof.
  intros Hg.
  assert (H : gray_exact g = true).
  { apply (all_below_spec 16 gray_exact 0 g gray_exact_all).
    change (Z.of_nat 16) with 16. lia. }
  unfold gray_exact in H. destruct (F32.to_Z (F32.of_Z g)); [| discriminate].
  apply Z.eqb_eq in H. congruence.
Qed.

(** ** The per-point loop *)

Section ExtractFacts.

Variable maxNoise : float32.

Lemma extractPoint_length i p b :
  length (cloud (extractPoint maxNoise i p b)) = length (cloud b)
  /\ length (depth (extractPoint maxNoise i p b)) = length (depth b)
  /\ length (noiseImg (extractPoint maxNoise i p b)) = length (noiseImg b)
  /\ length (mono (extractPoint maxNoise i p b)) = length (mono b).
Proof.
  unfold extractPoint. destruct (valid maxNoise p); simpl;
    rewrite ?length_insert; auto.
Qed.

Lemma extractPoint_fits i p b i0 n : fits i0 n b -> fits i0 n (extractPoint maxNoise i p b).
Proof.
  unfold fits. destruct (extractPoint_length i p b) as (-> & -> & -> & ->). auto.
Qed.

(* cells outside the slot of point [i] are not touched *)
Lemma extractPoint_cloud_other i p b k :
  (k < 5 * i \/ 5 * i + 5 <= k)%nat ->
  cloud (extractPoint maxNoise i p b) !! k = cloud b !! k.
Proof.
  intros Hk. unfold extractPoint. destruct (valid maxNoise p); simpl;
    rewrite !list_lookup_insert_ne by lia; reflexivity.
Qed.

Lemma extractPoint_image_other i p b k :
  k <> i ->
  depth (extractPoint maxNoise i p b) !! k = depth b !! k
  /\ noiseImg (extractPoint maxNoise i p b) !! k = noiseImg b !! k
  /\ mono (extractPoint maxNoise i p b) !! k = mono b !! k.
Proof.
  intros Hk. unfold extractPoint. destruct (valid maxNoise p); simpl;
    rewrite !list_lookup_insert_ne by congruence; auto.
Qed.

Lemma extractPoint_cells i p b :
  fits i 1 b -> PointCells maxNoise p i (extractPoint maxNoise i p b).
Proof.
  intros (Hc & Hd & Hn & Hm). unfold extractPoint.
  destruct (valid maxNoise p) eqn:Hv; split; rewrite ?Hv;
    cbn [cloud depth noiseImg mono];
    repeat first
      [ apply list_lookup_insert_eq; rewrite ?length_insert; lia
      | rewrite list_lookup_insert_ne by lia ].
Qed.

Lemma extractLoop_fits pts : forall i b i0 n,
  fits i0 n b -> fits i0 n (extractLoop maxNoise pts i b).
Proof.
  induction pts as [| p rest IH]; intros i b i0 n H; simpl; [exact H |].
  apply IH, extractPoint_fits, H.
Qed.

(* the loop from [i] on leaves the slots of earlier points alone *)
Lemma extractLoop_earlier pts : forall i b p j,
  (j < i)%nat -> PointCells maxNoise p j b ->
  PointCells maxNoise p j (extractLoop maxNoise pts i b).
Proof.
  induction pts as [| q rest IH]; intros i b p j Hj H; simpl; [exact H |].
  apply IH; [lia |].
  destruct H. destruct (extractPoint_image_other i q b j) as (Hd & Hn & Hm); [lia |].
  split; rewrite ?extractPoint_cloud_other by lia; try assumption; congruence.
Qed.

Lemma extractLoop_cells pts : forall i0 b j p,
  pts !! j = Some p -> fits i0 (length pts) b ->
  PointCells maxNoise p (i0 + j) (extractLoop maxNoise pts i0 b).
Proof.
  induction pts as [| q rest IH]; intros i0 b j p Hj Hfit; [discriminate |].
  simpl. destruct j as [| j'].
  - injection Hj as ->. rewrite Nat.add_0_r.
    apply extractLoop_earlier; [lia |]. apply extractPoint_cells.
    destruct Hfit as (? & ? & ? & ?). simpl in *. repeat split; lia.
  - replace (i0 + S j')%nat with (S i0 + j')%nat by lia.
    apply IH; [exact Hj |]. apply extractPoint_fits.
    destruct Hfit as (? & ? & ? & ?). simpl in *. repeat split; lia.
Qed.

End ExtractFacts.

(** ** extractData *)

Section ExtractDataFacts.

Variables (status : list bool) (cameraInfo : CameraInfo) (baseNameTF : string).
Variables (maxNoise : float32) (data : DepthData) (out : OutputSet).

Let out' := extractData status cameraInfo baseNameTF maxNoise data out.

Lemma extractData_cells i p :
  anyPointTopic status = true -> points data !! i = Some p ->
  PointCells maxNoise p i
    {| cloud := pc_data (msgCloud out'); depth := img_data (msgDepth out');
       noiseImg := img_data (msgNoise out'); mono := img_data (msgMono16 out') |}.
Proof.
  intros Hany Hp. subst out'. unfold extractData. rewrite Hany.
  cbn [negb msgCloud msgDepth msgNoise msgMono16 pc_data img_data].
  match goal with
  | |- PointCells _ _ _ {| cloud := cloud ?b; depth := _; noiseImg := _; mono := _ |} =>
      assert (H : PointCells maxNoise p (0 + i) b)
  end.
  { apply extractLoop_cells; [exact Hp |].
    unfold fits. cbn [cloud depth noiseImg mono]. rewrite !length_resize. lia. }
  destruct H. split; assumption.
Qed.

(** C1. A point that fails the test of line 814 gets NaN in the depth image
    and in x, y, z of its cloud record, zero in the noise image and in the
    noise field of the record; its gray value goes unchanged into the mono
    image and, converted to float without rounding, into the intensity
    field. *)
Theorem extractData_invalid_point i p :
  anyPointTopic status = true ->
  points data !! i = Some p ->
  valid maxNoise p = false ->
  img_data (msgDepth out') !! i = Some F32.quiet_NaN
  /\ F32.is_nan F32.quiet_NaN = true
  /\ img_data (msgNoise out') !! i = Some F32.zero
  /\ pc_data (msgCloud out') !! (5 * i)%nat = Some F32.quiet_NaN
  /\ pc_data (msgCloud out') !! (5 * i + 1)%nat = Some F32.quiet_NaN
  /\ pc_data (msgCloud out') !! (5 * i + 2)%nat = Some F32.quiet_NaN
  /\ pc_data (msgCloud out') !! (5 * i + 3)%nat = Some F32.zero
  /\ img_data (msgMono16 out') !! i = Some (grayValue p)
  /\ pc_data (msgCloud out') !! (5 * i + 4)%nat = Some (F32.of_Z (grayValue p))
  /\ (wf_point p -> F32.to_Z (F32.of_Z (grayValue p)) = Some (grayValue p)).
Proof.
  intros Hany Hp Hv. destruct (extractData_cells i p Hany Hp).
  rewrite Hv in *. simpl in *. repeat split; try assumption. apply of_Z_exact.
Qed.

(** C2. A point that passes the test of line 814 (confidence set and noise
    strictly below maxNoise) has its z copied into the depth image, its
    noise into the noise image, and x, y, z, noise into the first four
    fields of its cloud record, as the same bit patterns. *)
Theorem extractData_valid_point i p :
  anyPointTopic status = true ->
  points data !! i = Some p ->
  depthConfidence p = true ->
  F32.ltb (noise p) maxNoise = true ->
  img_data (msgDepth out') !! i = Some (z p)
  /\ img_data (msgNoise out') !! i = Some (noise p)
  /\ pc_data (msgCloud out') !! (5 * i)%nat = Some (x p)
  /\ pc_data (msgCloud out') !! (5 * i + 1)%nat = Some (y p)
  /\ pc_data (msgCloud out') !! (5 * i + 2)%nat = Some (z p)
  /\ pc_data (msgCloud out') !! (5 * i + 3)%nat = Some (noise p).
Proof.
  intros Hany Hp Hc Hn. destruct (extractData_cells i p Hany Hp).
  assert (Hv : valid maxNoise p = true) by (unfold valid; rewrite Hc, Hn; reflexivity).
  rewrite Hv in *. simpl in *. repeat split; assumption.
Qed.

(** C10. With no subscriber on the mono, depth, noise and cloud topics,
    extractData leaves those four messages as they were, whether or not the
    camera info topic has a subscriber; the camera info message is filled
    exactly when its topic has one. *)
Theorem extractData_no_point_topic :
  anyPointTopic status = false ->
  msgMono16 out' = msgMono16 out
  /\ msgDepth out' = msgDepth out
  /\ msgNoise out' = msgNoise out
  /\ msgCloud out' = msgCloud out
  /\ (status_at status CAMERA_INFO = false -> msgCameraInfo out' = msgCameraInfo out)
  /\ (status_at status CAMERA_INFO = true ->
      ci_height (msgCameraInfo out') = height data
      /\ ci_width (msgCameraInfo out') = width data
      /\ ci_K (msgCameraInfo out') = ci_K cameraInfo).
Proof.
  intros Hany. subst out'. unfold extractData. rewrite Hany.
  cbn [negb msgCloud msgDepth msgNoise msgMono16 msgCameraInfo].
  repeat (split; [reflexivity |]).
  split; intros Hc; rewrite Hc; cbn; auto.
Qed.

End ExtractDataFacts.

(** ** The driver on any camera *)

Section DriverFacts.

Context {D : Type} `{Cam : royale.ICameraDevice D}.

Implicit Types (s : PicoFlexx D) (l : Locals) (c : Config).

(** *** Liveness check *)

(** C4. isCurrent answers false exactly when iters_since_data has reached
    dropout_allow_iters and iters_since_start has reached
    startup_ignore_iters; with any other pair of counters it answers true. *)
Theorem isCurrent_false_iff s :
  isCurrent s = false
  <-> dropout_allow_iters <= iters_since_data s
      /\ startup_ignore_iters <= iters_since_start s.
Proof.
  unfold isCurrent. rewrite orb_false_iff, !Z.ltb_ge. reflexivity.
Qed.

Lemma isCurrent_true_iff s :
  isCurrent s = true
  <-> iters_since_data s < dropout_allow_iters
      \/ iters_since_start s < startup_ignore_iters.
Proof.
  unfold isCurrent. rewrite orb_true_iff, !Z.ltb_lt. reflexivity.
Qed.

(** *** Subscriber scan *)

Lemma scanSubscribers_spec subs n : forall i st connected,
  (i + n <= length st)%nat ->
  snd (scanSubscribers subs n i st connected)
  = connected || existsb (fun k => 0 <? subs k) (List.seq i n)
  /\ length (fst (scanSubscribers subs n i st connected)) = length st.
Proof.
  induction n as [| n IH]; intros i st connected Hlen; simpl.
  - rewrite orb_false_r. auto.
  - destruct (IH (S i) (<[i := 0 <? subs i]> st)
                (connected || default false (<[i := 0 <? subs i]> st !! i))) as [Hc Hl].
    { rewrite length_insert. lia. }
    rewrite Hc, Hl, length_insert.
    rewrite list_lookup_insert_eq by lia. simpl. rewrite orb_assoc. auto.
Qed.

Lemma scanSubscribers_connected subs st :
  length st = COUNT ->
  snd (scanSubscribers subs COUNT 0 st false) = true
  <-> exists i, (i < COUNT)%nat /\ 0 < subs i.
Proof.
  intros Hlen.
  destruct (scanSubscribers_spec subs COUNT 0 st false) as [-> _]; [lia |].
  rewrite orb_false_l, existsb_exists. split.
  - intros (i & Hin & Hi). apply in_seq in Hin. exists i. split; [lia |].
    apply Z.ltb_lt, Hi.
  - intros (i & Hlt & Hi). exists i. split; [apply in_seq; lia |].
    apply Z.ltb_lt, Hi.
Qed.

Lemma scanSubscribers_none subs st :
  length st = COUNT ->
  snd (scanSubscribers subs COUNT 0 st false) = false
  <-> forall i, (i < COUNT)%nat -> subs i <= 0.
Proof.
  intros Hlen. rewrite <- not_true_iff_false, (scanSubscribers_connected subs st Hlen).
  split.
  - intros Hno i Hi. destruct (Z.le_gt_cases (subs i) 0); [assumption |].
    exfalso. apply Hno. exists i. split; [assumption | lia].
  - intros Hall (i & Hi & Hpos). specialize (Hall i Hi). lia.
Qed.

(** *** Capture activation *)

(** C5. On a subscription callback: with a subscriber on some topic and the
    camera not capturing, startCapture is called (once); with no subscriber
    on any topic and the camera capturing, stopCapture is called (once); in
    the two remaining cases no request is made and the camera is left as it
    was. *)
Theorem callbackTopicStatus_capture subs s :
  length (status s) = COUNT ->
  let s' := callbackTopicStatus subs s in
  let some_subscriber := exists i, (i < COUNT)%nat /\ 0 < subs i in
  let no_subscriber := forall i, (i < COUNT)%nat -> subs i <= 0 in
  let capturing := royale.isCapturing (cameraDevice s) in
  (some_subscriber /\ capturing = false ->
   captureRequests s' = captureRequests s ++ [StartCapture]
   /\ cameraDevice s' = snd (royale.startCapture (cameraDevice s)))
  /\ (no_subscriber /\ capturing = true ->
      captureRequests s' = captureRequests s ++ [StopCapture]
      /\ cameraDevice s' = snd (royale.stopCapture (cameraDevice s)))
  /\ (some_subscriber /\ capturing = true \/ no_subscriber /\ capturing = false ->
      captureRequests s' = captureRequests s /\ cameraDevice s' = cameraDevice s).
Proof.
  intros Hlen s' some_subscriber no_subscriber capturing.
  pose proof (scanSubscribers_connected subs (status s) Hlen) as Hsome.
  pose proof (scanSubscribers_none subs (status s) Hlen) as Hnone.
  subst s' capturing. unfold callbackTopicStatus.
  destruct (scanSubscribers subs COUNT 0 (status s) false) as [st connected].
  simpl in Hsome, Hnone. cbn [cameraDevice set_status].
  repeat split.
  - destruct H as [Hs Hcap]. apply Hsome in Hs. rewrite Hs, Hcap. simpl.
    destruct (royale.startCapture (cameraDevice s)) as [r dev].
    destruct (royale.is_success r); reflexivity.
  - destruct H as [Hs Hcap]. apply Hsome in Hs. rewrite Hs, Hcap. simpl.
    destruct (royale.startCapture (cameraDevice s)) as [r dev].
    destruct (royale.is_success r); reflexivity.
  - destruct H as [Hs Hcap]. apply Hnone in Hs. rewrite Hs, Hcap. simpl.
    destruct (royale.stopCapture (cameraDevice s)) as [r dev].
    destruct (royale.is_success r); reflexivity.
  - destruct H as [Hs Hcap]. apply Hnone in Hs. rewrite Hs, Hcap. simpl.
    destruct (royale.stopCapture (cameraDevice s)) as [r dev].
    destruct (royale.is_success r); reflexivity.
  - destruct H as [[Hs Hcap] | [Hs Hcap]];
      [apply Hsome in Hs | apply Hnone in Hs]; rewrite Hs, Hcap; reflexivity.
  - destruct H as [[Hs Hcap] | [Hs Hcap]];
      [apply Hsome in Hs | apply Hnone in Hs]; rewrite Hs, Hcap; reflexivity.
Qed.


(** C9. When the startCapture or stopCapture call made by the subscription
    callback does not return SUCCESS, the callback clears [running] and
    calls ros::shutdown(), so the loop test of [process] fails from then
    on; the request is made once and the camera is left as that one call
    left it. *)
Theorem callbackTopicStatus_capture_failure subs s :
  length (status s) = COUNT ->
  let s' := callbackTopicStatus subs s in
  let some_subscriber := exists i, (i < COUNT)%nat /\ 0 < subs i in
  let no_subscriber := forall i, (i < COUNT)%nat -> subs i <= 0 in
  let capturing := royale.isCapturing (cameraDevice s) in
  (some_subscriber /\ capturing = false
   /\ fst (royale.startCapture (cameraDevice s)) <> royale.SUCCESS ->
   running s' = false /\ ros_ok s' = false /\ process_guard s' = false
   /\ captureRequests s' = captureRequests s ++ [StartCapture]
   /\ cameraDevice s' = snd (royale.startCapture (cameraDevice s)))
  /\ (no_subscriber /\ capturing = true
      /\ fst (royale.stopCapture (cameraDevice s)) <> royale.SUCCESS ->
      running s' = false /\ ros_ok s' = false /\ process_guard s' = false
      /\ captureRequests s' = captureRequests s ++ [StopCapture]
      /\ cameraDevice s' = snd (royale.stopCapture (cameraDevice s))).
Proof.
  intros Hlen s' some_subscriber no_subscriber capturing.
  pose proof (scanSubscribers_connected subs (status s) Hlen) as Hsome.
  pose proof (scanSubscribers_none subs (status s) Hlen) as Hnone.
  subst s' capturing. unfold callbackTopicStatus, process_guard.
  destruct (scanSubscribers subs COUNT 0 (status s) false) as [st connected].
  simpl in Hsome, Hnone. cbn [cameraDevice set_status].
  split.
  - intros (Hs & Hcap & Hfail). apply Hsome in Hs. rewrite Hs, Hcap. simpl.
    destruct (royale.startCapture (cameraDevice s)) as [r dev].
    destruct r; [contradiction |]. simpl. auto.
  - intros (Hs & Hcap & Hfail). apply Hnone in Hs. rewrite Hs, Hcap. simpl.
    destruct (royale.stopCapture (cameraDevice s)) as [r dev].
    destruct r; [contradiction |]. simpl. auto.
Qed.

(* a successful request leaves the flags alone *)
Lemma callbackTopicStatus_flags subs s :
  running (callbackTopicStatus subs s) = true -> running s = true.
Proof.
  unfold callbackTopicStatus.
  destruct (scanSubscribers subs COUNT 0 (status s) false) as [st connected].
  destruct (connected && _).
  - destruct (royale.startCapture _) as [r dev].
    destruct (negb (royale.is_success r)); simpl; [discriminate | auto].
  - destruct (negb connected && _); [| simpl; auto].
    destruct (royale.stopCapture _) as [r dev].
    destruct (negb (royale.is_success r)); simpl; [discriminate | auto].
Qed.

(** *** Exposure time *)

(* the blocks before the exposure_time block pass the proposal on as it is
   and do not write an exposure time *)
Lemma setUseCase_config uc s : config (snd (setUseCase uc s)) = config s.
Proof. unfold setUseCase. destruct (royale.setUseCase _ _). reflexivity. Qed.

Lemma setExposureMode_config a s : config (snd (setExposureMode a s)) = config s.
Proof.
  unfold setExposureMode. destruct (Bool.eqb _ _); [reflexivity |].
  destruct (royale.setExposureMode _ _). reflexivity.
Qed.

Lemma setExposure_config e s : config (snd (setExposure e s)) = config s.
Proof.
  unfold setExposure. destruct (_ || _); [reflexivity |].
  destruct (royale.setExposureTime _ _). reflexivity.
Qed.

Lemma reconfigureDevice_continue level c s c1 s1 :
  reconfigureDevice level c s = Continue (c1, s1) ->
  c1 = c /\ exposure_time (config s1) = exposure_time (config s).
Proof.
  unfold reconfigureDevice, reconfigureUseCase, reconfigureExposureMode, next.
  destruct (flagged level 1).
  - pose proof (setUseCase_config (use_case c) s) as Hu.
    destruct (setUseCase (use_case c) s) as [ok s0]. simpl in Hu.
    destruct ok; simpl; [| discriminate].
    destruct (flagged level 2).
    + pose proof (setExposureMode_config (exposure_mode c =? 0)
                    (set_config (set_use_case (use_case c) (config s0)) s0)) as Hm.
      destruct (setExposureMode _ _) as [ok s2]. simpl in Hm.
      destruct ok; simpl; [| discriminate].
      intros [= <- <-]. simpl. rewrite Hm. simpl. rewrite Hu. auto.
    + intros [= <- <-]. simpl. rewrite Hu. auto.
  - destruct (flagged level 2).
    + pose proof (setExposureMode_config (exposure_mode c =? 0) s) as Hm.
      destruct (setExposureMode _ _) as [ok s2]. simpl in Hm.
      destruct ok; simpl; [| discriminate].
      intros [= <- <-]. simpl. rewrite Hm. auto.
    + intros [= <- <-]. auto.
Qed.

(** C6, as the code has it.  When callbackConfig reaches the exposure_time
    block (the level flags exposure_time, and a use case or exposure mode
    flagged in the same call was accepted), and the proposed time, as the
    uint32_t setExposure receives, is outside the limits the camera
    reports at that moment, or the camera is in automatic exposure mode,
    then the committed exposure_time stays what it was and the caller's
    exposure_time is overwritten with it. *)
Theorem callbackConfig_exposure_rejected c level s c1 s1 :
  level <> 0xFFFFFFFF ->
  flagged level 0x04 = true ->
  reconfigureDevice level c s = Continue (c1, s1) ->
  outside_limits (wrap_u32 (exposure_time c)) (cameraDevice s1)
  \/ royale.getExposureMode (cameraDevice s1) = royale.AUTOMATIC ->
  exposure_time (config (snd (callbackConfig c level s))) = exposure_time (config s)
  /\ exposure_time (fst (callbackConfig c level s)) = exposure_time (config s).
Proof.
  intros Hlevel Hflag Hdev Hrej.
  destruct (reconfigureDevice_continue level c s c1 s1 Hdev) as [-> Hkeep].
  unfold callbackConfig. destruct (Z.eqb_spec level 0xFFFFFFFF); [contradiction |].
  rewrite Hdev. cbn [next]. unfold reconfigureExposureTime. rewrite Hflag.
  destruct (royale.getExposureMode (cameraDevice s1)) eqn:Hmode; cbn [royale.is_automatic].
  - destruct Hrej as [Hout | ?]; [| discriminate].
    unfold setExposure.
    assert (Hb : (wrap_u32 (exposure_time c) <? fst (royale.getExposureLimits (cameraDevice s1)))
                 || (snd (royale.getExposureLimits (cameraDevice s1)) <? wrap_u32 (exposure_time c))
                 = true).
    { apply orb_true_iff. destruct Hout; [left | right]; apply Z.ltb_lt; assumption. }
    rewrite Hb. simpl. auto.
  - simpl. auto.
Qed.


(** *** What the callbacks leave alone *)

Lemma same_loop_state_refl s : same_loop_state s s.
Proof. unfold same_loop_state. auto. Qed.

Lemma same_loop_state_trans s1 s2 s3 :
  same_loop_state s1 s2 -> same_loop_state s2 s3 -> same_loop_state s1 s3.
Proof.
  unfold same_loop_state. intros (? & ? & ? & ? & ?) (? & ? & ? & ? & ?).
  repeat split; congruence.
Qed.

Ltac same_state :=
  unfold same_loop_state; simpl; rewrite ?length_insert; auto 6.

Lemma onNewExposure_same e s : same_loop_state s (onNewExposure e s).
Proof. unfold onNewExposure. destruct (match _ with [] => _ | _ => _ end); same_state. Qed.

Lemma callbackTopicStatus_same subs s : same_loop_state s (callbackTopicStatus subs s).
Proof.
  unfold callbackTopicStatus.
  assert (Hl : length (fst (scanSubscribers subs COUNT 0 (status s) false))
               = length (status s)).
  { generalize (status s) false 0%nat. induction COUNT as [| n IH]; intros st b i.
    - reflexivity.
    - simpl. rewrite IH. apply length_insert. }
  destruct (scanSubscribers subs COUNT 0 (status s) false) as [st connected].
  simpl in Hl. cbn [cameraDevice set_status].
  destruct (connected && _).
  - destruct (royale.startCapture _) as [r dev].
    destruct (negb (royale.is_success r)); same_state.
  - destruct (negb connected && _); [| same_state].
    destruct (royale.stopCapture _) as [r dev].
    destruct (negb (royale.is_success r)); same_state.
Qed.

Lemma setUseCase_same uc s : same_loop_state s (snd (setUseCase uc s)).
Proof. unfold setUseCase. destruct (royale.setUseCase _ _). same_state. Qed.

Lemma setExposureMode_same a s : same_loop_state s (snd (setExposureMode a s)).
Proof.
  unfold setExposureMode. destruct (Bool.eqb _ _); [same_state |].
  destruct (royale.setExposureMode _ _). same_state.
Qed.

Lemma setExposure_same e s : same_loop_state s (snd (setExposure e s)).
Proof.
  unfold setExposure. destruct (_ || _); [same_state |].
  destruct (royale.setExposureTime _ _). same_state.
Qed.

Lemma next_same f k s0 :
  same_loop_state s0 (snd (finish f)) -> stage_same (D:=D) k ->
  same_loop_state s0 (snd (finish (next f k))).
Proof.
  intros Hf Hk. destruct f as [r | [c s]]; simpl in *; [exact Hf |].
  eapply same_loop_state_trans; [exact Hf | apply Hk].
Qed.

Lemma reconfigureUseCase_same level : stage_same (D:=D) (reconfigureUseCase level).
Proof.
  intros c s. unfold reconfigureUseCase. destruct (flagged level 1); [| same_state].
  pose proof (setUseCase_same (use_case c) s) as H.
  destruct (setUseCase (use_case c) s) as [[] s1]; simpl in *; [| exact H].
  revert H. same_state.
Qed.

Lemma reconfigureExposureMode_same level : stage_same (D:=D) (reconfigureExposureMode level).
Proof.
  intros c s. unfold reconfigureExposureMode. destruct (flagged level 2); [| same_state].
  pose proof (setExposureMode_same (exposure_mode c =? 0) s) as H.
  destruct (setExposureMode _ s) as [[] s1]; simpl in *; [| exact H].
  revert H. same_state.
Qed.

Lemma reconfigureExposureTime_same level : stage_same (D:=D) (reconfigureExposureTime level).
Proof.
  intros c s. unfold reconfigureExposureTime. destruct (flagged level 4); [| same_state].
  destruct (royale.is_automatic _); [same_state |].
  pose proof (setExposure_same (wrap_u32 (exposure_time c)) s) as H.
  destruct (setExposure _ s) as [[] s1]; simpl in *; [| exact H].
  revert H. same_state.
Qed.

Lemma reconfigureMaxNoise_same level : stage_same (D:=D) (reconfigureMaxNoise level).
Proof. intros c s. unfold reconfigureMaxNoise. destruct (flagged level 8); same_state. Qed.

Lemma reconfigureRangeFactor_same level : stage_same (D:=D) (reconfigureRangeFactor level).
Proof.
  intros c s. unfold reconfigureRangeFactor. destruct (flagged level 16); same_state.
Qed.

Lemma refreshLimits_same level : stage_same (D:=D) (refreshLimits level).
Proof. intros c s. unfold refreshLimits. destruct (_ || _); same_state. Qed.

Lemma callbackConfig_same c level s : same_loop_state s (snd (callbackConfig c level s)).
Proof.
  unfold callbackConfig. destruct (level =? 0xFFFFFFFF); [apply same_loop_state_refl |].
  repeat apply next_same;
    auto using reconfigureExposureTime_same, reconfigureMaxNoise_same,
               reconfigureRangeFactor_same, refreshLimits_same,
               reconfigureExposureMode_same.
  apply reconfigureUseCase_same.
Qed.

Lemma publish_same s out : same_loop_state s (fst (publish s out)).
Proof.
  unfold publish.
  repeat match goal with |- context [if ?b then _ else _] => destruct b end; same_state.
Qed.

Lemma timings_same now s : same_loop_state s (timings now s).
Proof.
  unfold timings. destruct (frame s =? 0); [same_state |].
  destruct (_ =? 0); same_state.
Qed.

Lemma process_frame_same e now s l :
  same_loop_state s (fst (process_frame e now s l))
  /\ l_data (snd (process_frame e now s l)) = l_data l.
Proof.
  unfold process_frame. destruct (l_data l) as [d |] eqn:Hd; [| split; [same_state | auto]].
  pose proof (publish_same s (extractData (status s) (cameraInfo s) (baseNameTF s)
                                (maxNoise s) d (l_msgs l))) as Hp.
  destruct (publish s _) as [s1 out1]. simpl in *. split; [| reflexivity].
  eapply same_loop_state_trans; [exact Hp |].
  eapply same_loop_state_trans; [| apply timings_same]. same_state.
Qed.


(** *** The counters of the loop *)

Lemma wrap_int_id n : - 2 ^ 31 <= n <= INT_MAX -> wrap_int n = n.
Proof.
  unfold wrap_int, INT_MAX. intros H. rewrite Z.mod_small by lia. lia.
Qed.

Lemma process_wait_timeout now s l :
  newData s = false ->
  process_wait now s l
  = (set_iters_since_data (wrap_int (iters_since_data s + 1)) s, l, TimedOut).
Proof. intros H. unfold process_wait. rewrite H. reflexivity. Qed.

Lemma process_wait_taken now s l :
  newData s = true ->
  process_wait now s l
  = (set_newData false (set_data (l_data l) (set_iters_since_data 0 s)),
     {| l_data := data s; l_msgs := l_msgs l; l_start := now |}, Taken).
Proof. intros H. unfold process_wait. rewrite H. reflexivity. Qed.

(** C8. In an iteration whose wait ends without data, iters_since_data goes
    up by one, no frame is handed to extractData, the loop's messages stay
    as they are and nothing is published; in an iteration whose wait ends
    with data, iters_since_data is zero in the state extraction starts from
    and still zero when the iteration ends, and the frame extracted is the
    one that was in the slot. *)
Theorem process_iteration_iters_since_data clk s l :
  let r := process_iteration clk s l in
  (newData s = false ->
   snd r = None
   /\ snd (fst r) = l
   /\ published (fst (fst r)) = published s
   /\ (0 <= iters_since_data s < INT_MAX ->
       iters_since_data (fst (fst r)) = iters_since_data s + 1))
  /\ (newData s = true ->
      exists s1 l1,
        process_wait (t_start clk) (process_tick s) l = (s1, l1, Taken)
        /\ iters_since_data s1 = 0
        /\ fst r = process_frame (t_end clk) (t_timings clk) s1 l1
        /\ snd r = data s
        /\ iters_since_data (fst (fst r)) = 0).
Proof.
  unfold process_iteration.
  assert (Hn : newData (process_tick s) = newData s)
    by (unfold process_tick; destruct (_ <=? _); reflexivity).
  assert (Hi : iters_since_data (process_tick s) = iters_since_data s)
    by (unfold process_tick; destruct (_ <=? _); reflexivity).
  assert (Hp : published (process_tick s) = published s)
    by (unfold process_tick; destruct (_ <=? _); reflexivity).
  assert (Hd : data (process_tick s) = data s)
    by (unfold process_tick; destruct (_ <=? _); reflexivity).
  destruct (newData s) eqn:Hnew.
  - rewrite (process_wait_taken _ _ _ Hn).
    pose proof (process_frame_same (t_end clk) (t_timings clk)
                  (set_newData false (set_data (l_data l)
                     (set_iters_since_data 0 (process_tick s))))
                  {| l_data := data (process_tick s); l_msgs := l_msgs l;
                     l_start := t_start clk |}) as [Hsame _].
    destruct (process_frame _ _ _ _) as [s2 l2] eqn:Hf.
    split; [discriminate |]. intros _.
    eexists _, _. split; [reflexivity |].
    split; [reflexivity |]. split; [rewrite Hf; reflexivity |].
    split; [exact Hd |].
    destruct Hsame as (_ & _ & _ & H0 & _). exact H0.
  - rewrite (process_wait_timeout _ _ _ Hn).
    split; [| discriminate]. intros _. cbn [fst snd].
    repeat split; try assumption.
    intros Hr. simpl. rewrite Hi. apply wrap_int_id. unfold INT_MAX in *. lia.
Qed.

Lemma process_tick_bound s :
  0 <= iters_since_start s <= startup_ignore_iters + 1 ->
  0 <= iters_since_start (process_tick s) <= startup_ignore_iters + 1.
Proof.
  unfold process_tick, startup_ignore_iters. intros H.
  destruct (Z.leb_spec (iters_since_start s) 15); simpl; [| lia].
  rewrite wrap_int_id by (unfold INT_MAX; lia). lia.
Qed.

(* the slip of line 689: at the threshold the counter is incremented once more *)
Lemma process_tick_at_threshold s :
  iters_since_start s = startup_ignore_iters ->
  iters_since_start (process_tick s) = startup_ignore_iters + 1.
Proof. unfold process_tick. intros ->. reflexivity. Qed.


(** *** The slot *)

Implicit Types (σ : Sys D) (ev : Event) (evs : list Event).

(* an event that is no take leaves the frame the loop holds where it is *)
Lemma step_keeps_local ev σ :
  takes ev σ = false -> l_data (loc (step ev σ)) = l_data (loc σ).
Proof.
  destruct ev as [d now | e | subs | c level | clk]; simpl; try reflexivity.
  unfold takes. destruct (pc σ) eqn:Hpc; simpl; intros Ht.
  - destruct (process_guard (drv σ)); reflexivity.
  - rewrite (process_wait_timeout _ _ _ Ht). reflexivity.
  - destruct (process_frame_same (t_end clk) (t_timings clk) (drv σ) (loc σ)) as [_ Hl].
    destruct (process_frame _ _ _ _). exact Hl.
  - reflexivity.
Qed.

(* an event that is neither a deposit nor a take leaves the slot as it is *)
Lemma step_keeps_slot ev σ :
  is_deposit ev = false -> takes ev σ = false ->
  data (drv (step ev σ)) = data (drv σ) /\ newData (drv (step ev σ)) = newData (drv σ).
Proof.
  destruct ev as [d now | e | subs | c level | clk]; simpl; intros Hd Ht.
  - discriminate.
  - destruct (onNewExposure_same e (drv σ)) as (? & ? & _). auto.
  - destruct (callbackTopicStatus_same subs (drv σ)) as (? & ? & _). auto.
  - destruct (callbackConfig_same c level (drv σ)) as (? & ? & _). auto.
  - unfold takes in Ht. destruct (pc σ) eqn:Hpc; simpl in *.
    + destruct (process_guard (drv σ)); simpl; [| auto].
      unfold process_tick. destruct (_ <=? _); auto.
    + rewrite (process_wait_timeout _ _ _ Ht). simpl. auto.
    + destruct (process_frame_same (t_end clk) (t_timings clk) (drv σ) (loc σ))
        as [(? & ? & _) _].
      destruct (process_frame _ _ _ _). auto.
    + auto.
Qed.

Lemma observed_nil_local evs : forall σ,
  observed evs σ = [] -> l_data (loc (run evs σ)) = l_data (loc σ).
Proof.
  induction evs as [| ev rest IH]; intros σ H; simpl in *; [reflexivity |].
  destruct (takes ev σ) eqn:Ht; [discriminate |]. simpl in H.
  rewrite (IH _ H). apply step_keeps_local, Ht.
Qed.

Lemma quiet_keeps_slot evs : forall σ,
  quiet evs σ ->
  data (drv (run evs σ)) = data (drv σ) /\ newData (drv (run evs σ)) = newData (drv σ).
Proof.
  induction evs as [| ev rest IH]; intros σ [Hdep Hobs]; simpl in *; [auto |].
  destruct (takes ev σ) eqn:Ht; [discriminate |]. simpl in Hobs.
  inversion Hdep as [| ? ? Hev Hrest]; subst.
  destruct (IH (step ev σ)) as [Hd Hn]; [split; assumption |].
  destruct (step_keeps_slot ev σ Hev Ht) as [Hd' Hn']. split; congruence.
Qed.

(* with the flag clear and no deposit, the loop takes nothing *)
Lemma no_deposit_no_take evs : forall σ,
  newData (drv σ) = false -> Forall (fun ev => is_deposit ev = false) evs ->
  observed evs σ = [].
Proof.
  induction evs as [| ev rest IH]; intros σ Hn Hdep; simpl; [reflexivity |].
  inversion Hdep as [| ? ? Hev Hrest]; subst.
  assert (Ht : takes ev σ = false).
  { unfold takes. destruct ev; try reflexivity. destruct (pc σ); auto. }
  rewrite Ht. simpl. apply IH; [| assumption].
  destruct (step_keeps_slot ev σ Hev Ht) as [_ Hn']. congruence.
Qed.

(** C3. Let frame A be deposited, then any events during which the loop
    takes nothing, then frame B, then any events without a deposit and
    without a take, and let the loop then reach the end of its wait.  That
    wait ends with a frame, the frame is B, and afterwards the slot is
    flagged empty and holds what the loop held before A arrived: A is in
    neither place, and as long as nothing new is deposited the loop takes
    nothing more. *)
Theorem slot_latest_wins σ A tA B tB mid rest clk :
  let σA := step (EvNewData A tA) σ in
  let σB := step (EvNewData B tB) (run mid σA) in
  let σ1 := run rest σB in
  let σ2 := step (EvProcess clk) σ1 in
  observed mid σA = [] ->
  quiet rest σB ->
  pc σ1 = AtWait ->
  observed [EvProcess clk] σ1 = [Some B]
  /\ pc σ2 = AtFrame
  /\ l_data (loc σ2) = Some B
  /\ newData (drv σ2) = false
  /\ data (drv σ2) = l_data (loc σ)
  /\ (forall evs, Forall (fun ev => is_deposit ev = false) evs -> observed evs σ2 = []).
Proof.
  intros σA σB σ1 σ2 Hmid Hrest Hpc.
  assert (HB : data (drv σ1) = Some B /\ newData (drv σ1) = true).
  { subst σ1. destruct (quiet_keeps_slot rest σB Hrest) as [-> ->].
    subst σB. simpl. destruct B. auto. }
  destruct HB as [HdB HnB].
  assert (Hloc : l_data (loc σ1) = l_data (loc σ)).
  { subst σ1. rewrite (observed_nil_local rest σB (proj2 Hrest)).
    subst σB. simpl. rewrite (observed_nil_local mid σA Hmid). reflexivity. }
  assert (Hstep : σ2 = {| drv := set_newData false (set_data (l_data (loc σ1))
                                    (set_iters_since_data 0 (drv σ1)));
                          loc := {| l_data := data (drv σ1); l_msgs := l_msgs (loc σ1);
                                    l_start := t_start clk |};
                          pc := AtFrame |}).
  { subst σ2. simpl. rewrite Hpc, (process_wait_taken _ _ _ HnB). reflexivity. }
  assert (Hn2 : newData (drv σ2) = false) by (rewrite Hstep; reflexivity).
  repeat split.
  - simpl. unfold takes. rewrite Hpc, HnB, HdB. reflexivity.
  - rewrite Hstep. reflexivity.
  - rewrite Hstep. simpl. exact HdB.
  - exact Hn2.
  - rewrite Hstep. simpl. exact Hloc.
  - intros evs Hevs. apply no_deposit_no_take; assumption.
Qed.

(** *** Reachable states *)

Lemma slot_invariant_step ev σ : slot_invariant σ -> slot_invariant (step ev σ).
Proof.
  intros (Hnew & Hfr & Hlen & Hit).
  destruct ev as [d now | e | subs | c level | clk]; simpl.
  - unfold slot_invariant; simpl. repeat split; eauto; lia.
  - destruct (onNewExposure_same e (drv σ)) as (Hd & Hn & Hs & _ & Hl).
    unfold slot_invariant; simpl. rewrite Hd, Hn, Hs, Hl. auto.
  - destruct (callbackTopicStatus_same subs (drv σ)) as (Hd & Hn & Hs & _ & Hl).
    unfold slot_invariant; simpl. rewrite Hd, Hn, Hs, Hl. auto.
  - destruct (callbackConfig_same c level (drv σ)) as (Hd & Hn & Hs & _ & Hl).
    unfold slot_invariant; simpl. rewrite Hd, Hn, Hs, Hl. auto.
  - destruct (pc σ) eqn:Hpc.
    + destruct (process_guard (drv σ)); unfold slot_invariant; simpl.
      * pose proof (process_tick_bound (drv σ) Hit) as Hb.
        unfold process_tick in *. destruct (_ <=? _); simpl in *;
          repeat split; auto; try discriminate; lia.
      * repeat split; auto; try discriminate; lia.
    + unfold process_wait. destruct (newData (drv σ)) eqn:Hn; unfold slot_invariant; simpl.
      * repeat split; auto; try discriminate; lia.
      * rewrite Hn. repeat split; auto; try discriminate; lia.
    + destruct (process_frame_same (t_end clk) (t_timings clk) (drv σ) (loc σ))
        as [(Hd & Hn & Hs & _ & Hl) _].
      destruct (process_frame _ _ _ _) as [s1 l1]. unfold slot_invariant; simpl in *.
      rewrite Hd, Hn, Hs, Hl. repeat split; auto; try discriminate; lia.
    + unfold slot_invariant. rewrite Hpc. auto.
Qed.

(* in every reachable state a set flag comes with a frame in the slot, the
   loop holds a frame when it extracts, and iters_since_start is at most
   one above the threshold *)
Lemma reachable_slot_invariant σ : reachable σ -> slot_invariant σ.
Proof.
  induction 1 as [σ (Hpc & Hloc & _ & Hn & Hd & Hl & Hs & _) | σ ev _ IH].
  - unfold slot_invariant, startup_ignore_iters. rewrite Hn, Hpc, Hl, Hs.
    repeat split; try discriminate; lia.
  - apply slot_invariant_step, IH.
Qed.

End DriverFacts.

(** ** The driver on the simulated camera *)

(** C7 does not hold of the code: the test of line 689 is [<=], so the counter
    is incremented once more when it has reached startup_ignore_iters.
    After sixteen iterations from start-up it is 16, one above the
    threshold the comments of lines 137 and 688 name as its cap. *)
Theorem iters_since_start_exceeds_threshold :
  iters_since_start
    (fst (fst (process (replicate 16 clock0) (example_driver cam_auto) Locals_new)))
  = 16
  /\ startup_ignore_iters
     < iters_since_start
         (fst (fst (process (replicate 16 clock0) (example_driver cam_auto) Locals_new))).
Proof. vm_compute. split; reflexivity. Qed.

(* and there it stays *)
Lemma iters_since_start_stays :
  iters_since_start
    (fst (fst (process (replicate 40 clock0) (example_driver cam_auto) Locals_new)))
  = 16.
Proof. vm_compute. reflexivity. Qed.

(** C6 as the spec words it fails: the limits kept in configMin and configMax
    are not what callbackConfig tests.  In [stale_limits_driver] they are 50
    and 500 while the camera reports 50 and 2000; a proposed exposure time
    of 1500 is outside the kept limits, and it is committed. *)
Lemma callbackConfig_kept_limits_counterexample :
  let s := stale_limits_driver in
  let c := example_config "MODE_9_5FPS_2000" 1 1500 in
  royale.getExposureMode (cameraDevice s) = royale.MANUAL
  /\ exposure_time (configMin s) = 50
  /\ exposure_time (configMax s) = 500
  /\ exposure_time (configMax s) < exposure_time c
  /\ exposure_time (config s) = 300
  /\ exposure_time (config (snd (callbackConfig c 0x04 s))) = 1500
  /\ exposure_time (fst (callbackConfig c 0x04 s)) = 1500.
Proof. vm_compute. repeat split; reflexivity. Qed.

(* the end-to-end scenario of the spec: Depth = [3.0, NaN], Noise = [0.01, 0.0],
   Mono16 = [100, 50], Cloud = (1, 2, 3, 0.01, 100), (NaN, NaN, NaN, 0.0, 50) *)
Example extractData_scenario :
  let out := extractData all_subscribed CameraInfo_new "pico_flexx"
               (F32.of_double d_0_07) example_frame OutputSet_new in
  img_data (msgDepth out) = [0x40400000; F32.quiet_NaN]
  /\ img_data (msgNoise out) = [0x3c23d70a; F32.zero]
  /\ img_data (msgMono16 out) = [100; 50]
  /\ pc_data (msgCloud out)
     = [0x3f800000; 0x40000000; 0x40400000; 0x3c23d70a; F32.of_Z 100;
        F32.quiet_NaN; F32.quiet_NaN; F32.quiet_NaN; F32.zero; F32.of_Z 50].
Proof. vm_compute. repeat split; reflexivity. Qed.

(** *** The statements above at concrete inputs *)

Lemma extractData_invalid_point_witness :
  let out := extractData all_subscribed CameraInfo_new "pico_flexx"
               (F32.of_double d_0_07) example_frame OutputSet_new in
  valid (F32.of_double d_0_07) noisy_point = false
  /\ img_data (msgDepth out) !! 1%nat = Some F32.quiet_NaN
  /\ pc_data (msgCloud out) !! 9%nat = Some (F32.of_Z 50).
Proof.
  assert (Hv : valid (F32.of_double d_0_07) noisy_point = false) by reflexivity.
  pose proof (extractData_invalid_point all_subscribed CameraInfo_new "pico_flexx"
                (F32.of_double d_0_07) example_frame OutputSet_new 1%nat noisy_point
                eq_refl eq_refl Hv) as (Hd & _ & _ & _ & _ & _ & _ & _ & Hi & _).
  split; [exact Hv |]. split; [exact Hd | exact Hi].
Defined.

Lemma extractData_valid_point_witness :
  let out := extractData all_subscribed CameraInfo_new "pico_flexx"
               (F32.of_double d_0_07) example_frame OutputSet_new in
  F32.ltb (noise clean_point) (F32.of_double d_0_07) = true
  /\ img_data (msgDepth out) !! 0%nat = Some (z clean_point)
  /\ pc_data (msgCloud out) !! 0%nat = Some (x clean_point).
Proof.
  assert (Hn : F32.ltb (noise clean_point) (F32.of_double d_0_07) = true) by reflexivity.
  pose proof (extractData_valid_point all_subscribed CameraInfo_new "pico_flexx"
                (F32.of_double d_0_07) example_frame OutputSet_new 0%nat clean_point
                eq_refl eq_refl eq_refl Hn) as (Hd & _ & Hx & _).
  split; [exact Hn |]. split; [exact Hd | exact Hx].
Defined.

Lemma extractData_no_point_topic_witness :
  anyPointTopic info_only = false
  /\ msgDepth (extractData info_only CameraInfo_new "pico_flexx" (F32.of_double d_0_07)
                 example_frame OutputSet_new)
     = msgDepth OutputSet_new.
Proof.
  split; [reflexivity |].
  apply (extractData_no_point_topic info_only CameraInfo_new "pico_flexx"
           (F32.of_double d_0_07) example_frame OutputSet_new eq_refl).
Defined.

Lemma isCurrent_false_iff_witness :
  isCurrent (set_iters_since_data 5 (set_iters_since_start 16 (example_driver cam_auto)))
  = false.
Proof.
  apply (proj2 (isCurrent_false_iff _)).
  cbv [iters_since_data iters_since_start set_iters_since_data set_iters_since_start
       dropout_allow_iters startup_ignore_iters].
  lia.
Defined.

Lemma callbackTopicStatus_capture_witness :
  length (status (example_driver cam_auto)) = COUNT
  /\ captureRequests (callbackTopicStatus depth_subscriber (example_driver cam_auto))
     = [StartCapture].
Proof.
  split; [reflexivity |].
  destruct (callbackTopicStatus_capture depth_subscriber (example_driver cam_auto) eq_refl)
    as (Hstart & _).
  apply Hstart. split; [| reflexivity].
  exists 2%nat. split; [unfold COUNT; lia | reflexivity].
Defined.

Lemma callbackTopicStatus_capture_failure_witness :
  fst (royale.startCapture (cameraDevice (example_driver cam_broken))) <> royale.SUCCESS
  /\ running (callbackTopicStatus depth_subscriber (example_driver cam_broken)) = false
  /\ ros_ok (callbackTopicStatus depth_subscriber (example_driver cam_broken)) = false.
Proof.
  assert (Hfail : fst (royale.startCapture (cameraDevice (example_driver cam_broken)))
                  <> royale.SUCCESS) by discriminate.
  split; [exact Hfail |].
  destruct (callbackTopicStatus_capture_failure depth_subscriber
              (example_driver cam_broken) eq_refl) as (Hstart & _).
  destruct Hstart as (Hr & Ho & _).
  - split; [| split; [reflexivity | exact Hfail]].
    exists 2%nat. split; [unfold COUNT; lia | reflexivity].
  - split; [exact Hr | exact Ho].
Defined.

Lemma callbackConfig_exposure_rejected_witness :
  let s := example_driver cam_manual in
  let c := example_config "MODE_5_45FPS_500" 1 5000 in
  outside_limits (wrap_u32 (exposure_time c)) (cameraDevice s)
  /\ exposure_time (config (snd (callbackConfig c 0x04 s))) = 300
  /\ exposure_time (fst (callbackConfig c 0x04 s)) = 300.
Proof.
  intros s c.
  assert (Hout : outside_limits (wrap_u32 (exposure_time c)) (cameraDevice s)).
  { right. vm_compute. reflexivity. }
  split; [exact Hout |].
  apply (callbackConfig_exposure_rejected c 0x04 s c s); [discriminate | reflexivity
                                                         | reflexivity | left; exact Hout].
Defined.

Lemma process_iteration_iters_since_data_witness :
  newData (example_driver cam_auto) = false
  /\ iters_since_data
       (fst (fst (process_iteration clock0 (example_driver cam_auto) Locals_new)))
     = 1.
Proof.
  split; [reflexivity |].
  destruct (process_iteration_iters_since_data clock0 (example_driver cam_auto) Locals_new)
    as (Htimeout & _).
  destruct (Htimeout eq_refl) as (_ & _ & _ & Hinc).
  apply Hinc. cbv [iters_since_data example_driver INT_MAX]. lia.
Defined.

Lemma slot_latest_wins_witness :
  let σA := step (EvNewData example_frame 1500) waiting_sys in
  let σB := step (EvNewData example_frame2 106500) (run [] σA) in
  let σ1 := run [EvTopicStatus depth_subscriber] σB in
  pc σ1 = AtWait
  /\ quiet [EvTopicStatus depth_subscriber] σB
  /\ observed [EvProcess clock0] σ1 = [Some example_frame2].
Proof.
  intros σA σB σ1.
  assert (Hpc : pc σ1 = AtWait) by (vm_compute; reflexivity).
  assert (Hq : quiet [EvTopicStatus depth_subscriber] σB).
  { split; [repeat constructor | vm_compute; reflexivity]. }
  split; [exact Hpc |]. split; [exact Hq |].
  apply (slot_latest_wins waiting_sys example_frame 1500 example_frame2 106500 []
           [EvTopicStatus depth_subscriber] clock0 eq_refl Hq Hpc).
Defined.

(** * More properties *)

(** ** More about extractData *)

Section ExtractMore.

Variable maxNoise : float32.

Lemma cloudRecord_length p : length (cloudRecord maxNoise p) = 5%nat.
Proof. unfold cloudRecord. destruct (valid maxNoise p); reflexivity. Qed.

Lemma extractLoop_length pts : forall i b,
  length (cloud (extractLoop maxNoise pts i b)) = length (cloud b)
  /\ length (depth (extractLoop maxNoise pts i b)) = length (depth b)
  /\ length (noiseImg (extractLoop maxNoise pts i b)) = length (noiseImg b)
  /\ length (mono (extractLoop maxNoise pts i b)) = length (mono b).
Proof.
  induction pts as [| p rest IH]; intros i b; simpl; [auto |].
  destruct (IH (S i) (extractPoint maxNoise i p b)) as (-> & -> & -> & ->).
  apply extractPoint_length.
Qed.

(* the records of a list of points, one after the other *)
Lemma bind_cloudRecord_length (pts : list DepthPoint) :
  length (pts ≫= cloudRecord maxNoise) = (5 * length pts)%nat.
Proof.
  induction pts as [| p rest IH]; [reflexivity |].
  change ((p :: rest) ≫= cloudRecord maxNoise)
    with (cloudRecord maxNoise p ++ (rest ≫= cloudRecord maxNoise)).
  rewrite length_app, cloudRecord_length, IH. simpl. lia.
Qed.

Lemma bind_cloudRecord_lookup (pts : list DepthPoint) : forall i r p,
  pts !! i = Some p -> (r < 5)%nat ->
  (pts ≫= cloudRecord maxNoise) !! (5 * i + r)%nat = cloudRecord maxNoise p !! r.
Proof.
  induction pts as [| q rest IH]; intros i r p Hp Hr; [discriminate |].
  change ((q :: rest) ≫= cloudRecord maxNoise)
    with (cloudRecord maxNoise q ++ (rest ≫= cloudRecord maxNoise)).
  destruct i as [| i'].
  - injection Hp as ->. rewrite lookup_app_l by (rewrite cloudRecord_length; lia).
    reflexivity.
  - rewrite lookup_app_r by (rewrite cloudRecord_length; lia).
    rewrite cloudRecord_length.
    replace (5 * S i' + r - 5)%nat with (5 * i' + r)%nat by lia.
    apply IH; assumption.
Qed.

End ExtractMore.

Section ExtractDataMore.

Variables (status : list bool) (cameraInfo : CameraInfo) (baseNameTF : string).
Variables (maxNoise : float32) (data : DepthData).

(** X1. With a subscriber on a point topic, the four buffers extractData
    leaves are the encodings of the frame's points in order and nothing
    else: one depth cell, one noise cell and one gray value per point, and
    one five-cell record per point in the cloud. *)
Theorem extractData_buffers out :
  anyPointTopic status = true ->
  let out' := extractData status cameraInfo baseNameTF maxNoise data out in
  img_data (msgDepth out') = depthCell maxNoise <$> points data
  /\ img_data (msgNoise out') = noiseCell maxNoise <$> points data
  /\ img_data (msgMono16 out') = grayValue <$> points data
  /\ pc_data (msgCloud out') = points data ≫= cloudRecord maxNoise.
Proof.
  intros Hany out'.
  assert (Hcells : forall i p, points data !! i = Some p ->
            PointCells maxNoise p i
              {| cloud := pc_data (msgCloud out'); depth := img_data (msgDepth out');
                 noiseImg := img_data (msgNoise out');
                 mono := img_data (msgMono16 out') |}).
  { intros i p. apply extractData_cells, Hany. }
  assert (Hlen : length (pc_data (msgCloud out')) = (5 * length (points data))%nat
                 /\ length (img_data (msgDepth out')) = length (points data)
                 /\ length (img_data (msgNoise out')) = length (points data)
                 /\ length (img_data (msgMono16 out')) = length (points data)).
  { subst out'. unfold extractData. rewrite Hany.
    cbn [negb msgCloud msgDepth msgNoise msgMono16 pc_data img_data].
    match goal with
    | |- context [extractLoop ?m ?pts ?i ?b] =>
        destruct (extractLoop_length m pts i b) as (-> & -> & -> & ->)
    end.
    cbn [cloud depth noiseImg mono]. rewrite !length_resize. auto. }
  destruct Hlen as (Lc & Ld & Ln & Lm).
  repeat split; apply list_eq; intros k.
  - rewrite list_lookup_fmap. destruct (points data !! k) as [p |] eqn:Hp.
    + destruct (Hcells k p Hp). cbn in *. assumption.
    + apply lookup_ge_None. apply lookup_ge_None in Hp. lia.
  - rewrite list_lookup_fmap. destruct (points data !! k) as [p |] eqn:Hp.
    + destruct (Hcells k p Hp). cbn in *. assumption.
    + apply lookup_ge_None. apply lookup_ge_None in Hp. lia.
  - rewrite list_lookup_fmap. destruct (points data !! k) as [p |] eqn:Hp.
    + destruct (Hcells k p Hp). cbn in *. assumption.
    + apply lookup_ge_None. apply lookup_ge_None in Hp. lia.
  - destruct (points data !! (k / 5)%nat) as [p |] eqn:Hp.
    + assert (Hk : k = (5 * (k / 5) + k mod 5)%nat) by apply Nat.div_mod_eq.
      assert (Hr : (k mod 5 < 5)%nat) by (apply Nat.mod_upper_bound; lia).
      rewrite Hk at 1 2.
      rewrite (bind_cloudRecord_lookup maxNoise (points data) _ _ p Hp Hr).
      destruct (Hcells _ p Hp). cbn [cloud] in *.
      unfold cloudRecord.
      destruct (k mod 5)%nat as [| [| [| [| [| r]]]]]; [.. | lia];
        rewrite ?Nat.add_0_r; destruct (valid maxNoise p); assumption.
    + apply lookup_ge_None in Hp.
      assert (5 * length (points data) <= k)%nat.
      { pose proof (Nat.div_mod_eq k 5).
        assert (k mod 5 < 5)%nat by (apply Nat.mod_upper_bound; lia). lia. }
      rewrite (proj2 (lookup_ge_None _ _)) by lia.
      symmetry. apply lookup_ge_None. rewrite bind_cloudRecord_length. lia.
Qed.

(** X2. What extractData leaves in the mono, depth, noise and cloud messages
    does not depend on what they held before: nothing of an earlier frame
    survives in them, whatever its size was. *)
Theorem extractData_forgets out1 out2 :
  anyPointTopic status = true ->
  let r1 := extractData status cameraInfo baseNameTF maxNoise data out1 in
  let r2 := extractData status cameraInfo baseNameTF maxNoise data out2 in
  msgMono16 r1 = msgMono16 r2 /\ msgDepth r1 = msgDepth r2
  /\ msgNoise r1 = msgNoise r2 /\ msgCloud r1 = msgCloud r2.
Proof.
  intros Hany r1 r2.
  destruct (extractData_buffers out1 Hany) as (Hd1 & Hn1 & Hm1 & Hc1).
  destruct (extractData_buffers out2 Hany) as (Hd2 & Hn2 & Hm2 & Hc2).
  fold r1 in Hd1, Hn1, Hm1, Hc1. fold r2 in Hd2, Hn2, Hm2, Hc2.
  assert (Hd : img_data (msgDepth r1) = img_data (msgDepth r2)) by congruence.
  assert (Hn : img_data (msgNoise r1) = img_data (msgNoise r2)) by congruence.
  assert (Hm : img_data (msgMono16 r1) = img_data (msgMono16 r2)) by congruence.
  assert (Hc : pc_data (msgCloud r1) = pc_data (msgCloud r2)) by congruence.
  clear - Hany Hd Hn Hm Hc. subst r1 r2. revert Hd Hn Hm Hc.
  unfold extractData. rewrite Hany.
  cbn [negb msgCloud msgDepth msgNoise msgMono16 pc_data img_data].
  intros -> -> -> ->. auto.
Qed.

(** X3. For a frame with as many points as width times height, the sizes
    extractData announces fit the buffers it fills: in each image the step
    times the height is the number of bytes, in the cloud the row step is
    the point step times the width and the row step times the height is the
    number of bytes; the point step is the size of the five float fields. *)
Theorem extractData_layout out :
  anyPointTopic status = true ->
  0 <= width data < 2 ^ 16 ->
  Z.of_nat (length (points data)) = width data * height data ->
  let out' := extractData status cameraInfo baseNameTF maxNoise data out in
  img_step (msgMono16 out') * img_height (msgMono16 out')
  = 2 * Z.of_nat (length (img_data (msgMono16 out')))
  /\ img_step (msgDepth out') * img_height (msgDepth out')
     = 4 * Z.of_nat (length (img_data (msgDepth out')))
  /\ img_step (msgNoise out') * img_height (msgNoise out')
     = 4 * Z.of_nat (length (img_data (msgNoise out')))
  /\ pc_point_step (msgCloud out') = 4 * Z.of_nat (length (pc_fields (msgCloud out')))
  /\ pc_row_step (msgCloud out') = pc_point_step (msgCloud out') * pc_width (msgCloud out')
  /\ pc_row_step (msgCloud out') * pc_height (msgCloud out')
     = 4 * Z.of_nat (length (pc_data (msgCloud out'))).
Proof.
  intros Hany Hw Hn out'.
  destruct (extractData_buffers out Hany) as (Hd & Hno & Hm & Hc).
  fold out' in Hd, Hno, Hm, Hc. rewrite Hd, Hno, Hm, Hc.
  rewrite !length_fmap, bind_cloudRecord_length.
  subst out'. unfold extractData. rewrite Hany.
  cbn [negb msgCloud msgDepth msgNoise msgMono16 img_step img_height pc_point_step
       pc_row_step pc_width pc_height pc_fields].
  unfold wrap_u32, cloudFields. cbn [length].
  rewrite !Z.mod_small by lia. repeat split; lia.
Qed.

End ExtractDataMore.

(** ** More about the driver on any camera *)

Section DriverMore.

Context {D : Type} `{Cam : royale.ICameraDevice D}.

Implicit Types (s : PicoFlexx D) (l : Locals) (c : Config).

(** *** Publication *)

Lemma timings_published now s : published (timings now s) = published s.
Proof.
  unfold timings. destruct (frame s =? 0); [reflexivity |].
  destruct (_ =? 0); reflexivity.
Qed.

(** X4. Processing a frame publishes one message on each topic that has a
    subscriber, in the order of the topics, and none on the others; every
    message it publishes carries the header of the frame being processed,
    so a message filled for an earlier frame never goes out. *)
Theorem process_frame_publishes e now s l d :
  l_data l = Some d ->
  exists new,
    published (fst (process_frame e now s l)) = published s ++ new
    /\ msg_topic <$> new
       = filter (fun t => status_at (status s) t = true) all_topics
    /\ Forall (fun m => msg_header m = frameHeader (baseNameTF s) d) new.
Proof.
  intros Hd. unfold process_frame. rewrite Hd. unfold publish, extractData, anyPointTopic.
  unfold all_topics. rewrite !filter_cons, filter_nil.
  destruct (status_at (status s) CAMERA_INFO), (status_at (status s) MONO_16),
    (status_at (status s) DEPTH), (status_at (status s) NOISE),
    (status_at (status s) CLOUD);
    cbn [negb orb fst snd msgCameraInfo msgCloud msgMono16 msgDepth msgNoise];
    rewrite timings_published; cbn [published set_processTime set_published];
    eexists; (split; [reflexivity |]);
    (split; [repeat case_decide; try discriminate; try congruence; reflexivity |]);
    repeat constructor.
Qed.


(** *** Subscription callback *)

Lemma scanSubscribers_status subs n : forall i st connected k,
  (i + n <= length st)%nat ->
  fst (scanSubscribers subs n i st connected) !! k
  = if decide (i <= k < i + n)%nat then Some (0 <? subs k) else st !! k.
Proof.
  induction n as [| n IH]; intros i st connected k Hlen; simpl.
  - case_decide; [lia | reflexivity].
  - rewrite IH by (rewrite length_insert; lia).
    destruct (decide (k = i)) as [-> | Hne].
    + repeat case_decide; try lia. apply list_lookup_insert_eq. lia.
    + rewrite list_lookup_insert_ne by congruence.
      repeat case_decide; try lia; reflexivity.
Qed.

(** X5. After a subscription callback the status of every topic says whether
    its publisher has a subscriber, and the statistics of the timing window
    (frame count, processing time, reception delay) are set to zero exactly
    when the callback asks the camera to start; a stop request or no request
    leaves them as they were. *)
Theorem callbackTopicStatus_status subs s :
  length (status s) = COUNT ->
  let s' := callbackTopicStatus subs s in
  (forall t, status_at (status s') t = (0 <? subs (topic_index t)))
  /\ (captureRequests s' = captureRequests s ++ [StartCapture] ->
      frame s' = 0 /\ processTime s' = 0 /\ delayReceived s' = 0)
  /\ (captureRequests s' <> captureRequests s ++ [StartCapture] ->
      frame s' = frame s /\ processTime s' = processTime s
      /\ delayReceived s' = delayReceived s).
Proof.
  intros Hlen s'.
  assert (Hst : forall t, status_at (fst (scanSubscribers subs COUNT 0 (status s) false)) t
                          = (0 <? subs (topic_index t))).
  { intros t. unfold status_at.
    rewrite scanSubscribers_status by (rewrite Hlen; unfold COUNT; lia).
    case_decide as Hk; [reflexivity |].
    exfalso. apply Hk. unfold COUNT. destruct t; simpl; lia. }
  subst s'. unfold callbackTopicStatus.
  destruct (scanSubscribers subs COUNT 0 (status s) false) as [st connected].
  cbn [fst] in Hst. cbn [cameraDevice set_status].
  destruct (connected && _).
  - destruct (royale.startCapture _) as [r dev].
    destruct (negb (royale.is_success r)); cbn; (split; [exact Hst |]);
      split; auto; intros Hne; contradiction.
  - destruct (negb connected && _).
    + destruct (royale.stopCapture _) as [r dev].
      destruct (negb (royale.is_success r)); cbn; (split; [exact Hst |]);
        (split; [| auto]); intros Heq; apply app_inv_head in Heq; discriminate.
    + cbn. split; [exact Hst |]. split; [| auto].
      intros Heq. symmetry in Heq. rewrite <- (app_nil_r (captureRequests s)) in Heq at 2.
      apply app_inv_head in Heq. discriminate.
Qed.


(** *** Reconfiguration *)

(* the blocks after the exposure_time block do not write an exposure time
   and pass the caller's configuration on *)
Lemma after_exposure_keeps level c s :
  let r := finish (next (next (reconfigureMaxNoise level c s)
                           (reconfigureRangeFactor level))
                     (refreshLimits level)) in
  fst r = c /\ exposure_time (config (snd r)) = exposure_time (config s)
  /\ cameraDevice (snd r) = cameraDevice s.
Proof.
  unfold reconfigureMaxNoise, reconfigureRangeFactor, refreshLimits, next, finish.
  destruct (flagged level 8), (flagged level 16), (flagged level 1 || flagged level 2);
    cbn; auto.
Qed.

(** X6. When callbackConfig reaches the exposure_time block in manual mode
    with a proposed time inside the limits the camera reports, the camera
    decides: if setExposureTime succeeds the proposed time is committed and
    the caller keeps it, if it fails the committed time stays and the
    caller's time is overwritten with it.  Either way the camera is left as
    that call left it. *)
Theorem callbackConfig_exposure_camera_decides c level s c1 s1 :
  level <> 0xFFFFFFFF ->
  flagged level 0x04 = true ->
  reconfigureDevice level c s = Continue (c1, s1) ->
  royale.getExposureMode (cameraDevice s1) = royale.MANUAL ->
  ~ outside_limits (wrap_u32 (exposure_time c)) (cameraDevice s1) ->
  let call := royale.setExposureTime (wrap_u32 (exposure_time c)) (cameraDevice s1) in
  let committed := if royale.is_success (fst call) then exposure_time c
                   else exposure_time (config s) in
  exposure_time (config (snd (callbackConfig c level s))) = committed
  /\ exposure_time (fst (callbackConfig c level s)) = committed
  /\ cameraDevice (snd (callbackConfig c level s)) = snd call.
Proof.
  intros Hlevel Hflag Hdev Hmode Hin call committed.
  destruct (reconfigureDevice_continue level c s c1 s1 Hdev) as [-> Hkeep].
  unfold callbackConfig. destruct (Z.eqb_spec level 0xFFFFFFFF); [contradiction |].
  rewrite Hdev. cbn [next]. unfold reconfigureExposureTime. rewrite Hflag, Hmode.
  cbn [royale.is_automatic]. unfold setExposure.
  assert (Hb : (wrap_u32 (exposure_time c) <? fst (royale.getExposureLimits (cameraDevice s1)))
               || (snd (royale.getExposureLimits (cameraDevice s1))
                   <? wrap_u32 (exposure_time c)) = false).
  { apply orb_false_iff. unfold outside_limits in Hin. split; apply Z.ltb_ge; lia. }
  rewrite Hb. subst committed call.
  destruct (royale.setExposureTime _ _) as [r dev]. cbn [fst snd].
  destruct (royale.is_success r); cbn [negb next finish fst snd].
  - match goal with
    | |- context [reconfigureMaxNoise level c ?s2] =>
        destruct (after_exposure_keeps level c s2) as (-> & -> & ->)
    end.
    cbn. auto.
  - cbn. auto.
Qed.

(** X7. When the camera does not take the proposed use case, callbackConfig
    stops there: the caller gets its configuration back with only the use
    case overwritten by the committed one, and the driver is as before
    except for its camera; no other proposal of the same call is applied,
    whatever the level flags. *)
Theorem callbackConfig_use_case_refused c level s :
  level <> 0xFFFFFFFF ->
  flagged level 0x01 = true ->
  fst (setUseCase (use_case c) s) = false ->
  callbackConfig c level s
  = (set_use_case (use_case (config s)) c,
     set_cameraDevice (snd (royale.setUseCase (use_case c) (cameraDevice s))) s).
Proof.
  intros Hlevel Hflag Hfail.
  unfold callbackConfig. destruct (Z.eqb_spec level 0xFFFFFFFF); [contradiction |].
  unfold reconfigureDevice, reconfigureUseCase. rewrite Hflag.
  revert Hfail. unfold setUseCase.
  destruct (royale.setUseCase (use_case c) (cameraDevice s)) as [r dev].
  cbn [fst snd]. intros ->. reflexivity.
Qed.

(** X8. A reconfiguration that changes the use case or the exposure mode,
    is accepted, and does not propose an exposure time ends with the kept
    limits equal to the limits the camera then reports, and with the server
    told the same limits. *)
Theorem callbackConfig_refreshes_limits c level s c1 s1 :
  level <> 0xFFFFFFFF ->
  flagged level 0x01 || flagged level 0x02 = true ->
  flagged level 0x04 = false ->
  reconfigureDevice level c s = Continue (c1, s1) ->
  let s' := snd (callbackConfig c level s) in
  let limits := royale.getExposureLimits (cameraDevice s') in
  exposure_time (configMin s') = wrap_int (fst limits)
  /\ exposure_time (configMax s') = wrap_int (snd limits)
  /\ srv_min (server s') = configMin s'
  /\ srv_max (server s') = configMax s'.
Proof.
  intros Hlevel Hflags Hno4 Hdev.
  unfold callbackConfig. destruct (Z.eqb_spec level 0xFFFFFFFF); [contradiction |].
  rewrite Hdev. cbn [next]. unfold reconfigureExposureTime. rewrite Hno4.
  unfold reconfigureMaxNoise, reconfigureRangeFactor, refreshLimits, next, finish.
  rewrite Hflags.
  destruct (flagged level 8), (flagged level 16); cbn; auto.
Qed.

Lemma loop_untouched_refl s : loop_untouched s s.
Proof. unfold loop_untouched. auto 10. Qed.

Lemma loop_untouched_trans s1 s2 s3 :
  loop_untouched s1 s2 -> loop_untouched s2 s3 -> loop_untouched s1 s3.
Proof.
  unfold loop_untouched.
  intros (? & ? & ? & ? & ? & ? & ? & ? & ?) (? & ? & ? & ? & ? & ? & ? & ? & ?).
  repeat split; congruence.
Qed.

Lemma next_untouched f k s0 :
  loop_untouched s0 (snd (finish f)) ->
  (forall c s, loop_untouched s (snd (finish (k c s)))) ->
  loop_untouched s0 (snd (finish (next f k))).
Proof.
  intros Hf Hk. destruct f as [r | [c s]]; simpl in *; [exact Hf |].
  eapply loop_untouched_trans; [exact Hf | apply Hk].
Qed.

Lemma reconfigureUseCase_untouched level c s :
  loop_untouched s (snd (finish (reconfigureUseCase level c s))).
Proof.
  unfold reconfigureUseCase, setUseCase. destruct (flagged level 1);
    [| apply loop_untouched_refl].
  destruct (royale.setUseCase _ _) as [r dev]. destruct (String.eqb _ _);
    unfold loop_untouched; cbn; auto 10.
Qed.

Lemma reconfigureExposureMode_untouched level c s :
  loop_untouched s (snd (finish (reconfigureExposureMode level c s))).
Proof.
  unfold reconfigureExposureMode, setExposureMode. destruct (flagged level 2);
    [| apply loop_untouched_refl].
  destruct (Bool.eqb _ _); [unfold loop_untouched; cbn; auto 10 |].
  destruct (royale.setExposureMode _ _) as [r dev]. destruct (royale.is_success r);
    unfold loop_untouched; cbn; auto 10.
Qed.

Lemma reconfigureExposureTime_untouched level c s :
  loop_untouched s (snd (finish (reconfigureExposureTime level c s))).
Proof.
  unfold reconfigureExposureTime, setExposure. destruct (flagged level 4);
    [| apply loop_untouched_refl].
  destruct (royale.is_automatic _); [apply loop_untouched_refl |].
  destruct (_ || _); [apply loop_untouched_refl |].
  destruct (royale.setExposureTime _ _) as [r dev]. destruct (royale.is_success r);
    unfold loop_untouched; cbn; auto 10.
Qed.

Lemma reconfigureRest_untouched level c s :
  loop_untouched s (snd (finish (reconfigureMaxNoise level c s)))
  /\ loop_untouched s (snd (finish (reconfigureRangeFactor level c s)))
  /\ loop_untouched s (snd (finish (refreshLimits level c s))).
Proof.
  unfold reconfigureMaxNoise, reconfigureRangeFactor, refreshLimits.
  destruct (flagged level 8), (flagged level 16), (flagged level 1 || flagged level 2);
    unfold loop_untouched; cbn; auto 20.
Qed.

(** X9. A reconfiguration never touches the frame slot, the liveness
    counters, the subscription status, the running flag, the shutdown
    request, the capture requests or what was published: it can neither
    stop the loop nor make it drop or repeat a frame. *)
Theorem callbackConfig_leaves_loop c level s :
  let s' := snd (callbackConfig c level s) in
  data s' = data s /\ newData s' = newData s
  /\ iters_since_start s' = iters_since_start s
  /\ iters_since_data s' = iters_since_data s
  /\ status s' = status s
  /\ running s' = running s /\ ros_ok s' = ros_ok s
  /\ captureRequests s' = captureRequests s
  /\ published s' = published s.
Proof.
  change (loop_untouched s (snd (callbackConfig c level s))).
  unfold callbackConfig. destruct (level =? 0xFFFFFFFF); [apply loop_untouched_refl |].
  unfold reconfigureDevice.
  repeat apply next_untouched;
    try (intros; apply reconfigureRest_untouched);
    try (intros; apply reconfigureExposureTime_untouched);
    try (intros; apply reconfigureExposureMode_untouched).
  apply reconfigureUseCase_untouched.
Qed.


(** *** Exposure reports *)

(** X10. Reporting an exposure time twice is the same as reporting it once,
    and after a report the list of exposure times starts with the reported
    time; when the report changes that list, the committed exposure time
    becomes the reported time and the server is told the committed
    configuration. *)
Theorem onNewExposure_idempotent e s :
  let s' := onNewExposure e s in
  onNewExposure e s' = s'
  /\ head (exposureTimes s') = Some e
  /\ (exposureTimes s' <> exposureTimes s ->
      exposure_time (config s') = wrap_int e /\ srv_config (server s') = config s').
Proof.
  unfold onNewExposure.
  destruct (exposureTimes s) as [| e0 rest] eqn:He.
  - cbn. rewrite Z.eqb_refl. auto.
  - destruct (Z.eqb_spec e e0) as [-> | Hne].
    + rewrite He, Z.eqb_refl. split; [reflexivity |]. split; [reflexivity |].
      intros Hne. contradiction.
    + cbn. rewrite Z.eqb_refl. auto.
Qed.

(** *** Liveness *)

Lemma process_tick_fields s :
  newData (process_tick s) = newData s
  /\ data (process_tick s) = data s
  /\ iters_since_data (process_tick s) = iters_since_data s
  /\ running (process_tick s) = running s
  /\ ros_ok (process_tick s) = ros_ok s
  /\ published (process_tick s) = published s.
Proof. unfold process_tick. destruct (_ <=? _); cbn; auto 10. Qed.

Lemma process_tick_counter s :
  0 <= iters_since_start s <= startup_ignore_iters + 1 ->
  iters_since_start (process_tick s)
  = Z.min (iters_since_start s + 1) (startup_ignore_iters + 1).
Proof.
  unfold process_tick, startup_ignore_iters. intros H.
  destruct (Z.leb_spec (iters_since_start s) 15); cbn; [| lia].
  rewrite wrap_int_id by (unfold INT_MAX; lia). lia.
Qed.

(* iterations during which nothing arrives *)
Lemma process_idle cs : forall s l,
  process_guard s = true -> newData s = false ->
  0 <= iters_since_start s <= startup_ignore_iters + 1 ->
  0 <= iters_since_data s -> iters_since_data s + Z.of_nat (length cs) <= INT_MAX ->
  let r := process cs s l in
  snd r = [] /\ snd (fst r) = l
  /\ published (fst (fst r)) = published s
  /\ newData (fst (fst r)) = false
  /\ process_guard (fst (fst r)) = true
  /\ iters_since_data (fst (fst r)) = iters_since_data s + Z.of_nat (length cs)
  /\ iters_since_start (fst (fst r))
     = Z.min (iters_since_start s + Z.of_nat (length cs)) (startup_ignore_iters + 1).
Proof.
  induction cs as [| clk rest IH]; intros s l Hg Hn Hs Hd0 Hd.
  - cbn. repeat split; auto; try lia.
  - cbn [process length] in *. rewrite Hg. unfold process_iteration.
    destruct (process_tick_fields s) as (Hn' & _ & Hi' & Hr' & Ho' & Hp').
    rewrite (process_wait_timeout _ _ _ (eq_trans Hn' Hn)).
    set (s1 := set_iters_since_data _ _).
    assert (Hs1 : iters_since_start s1 = Z.min (iters_since_start s + 1) 16).
    { subst s1. cbn. apply process_tick_counter, Hs. }
    assert (Hd1 : iters_since_data s1 = iters_since_data s + 1).
    { subst s1. cbn. rewrite Hi'. apply wrap_int_id. unfold INT_MAX in *. lia. }
    destruct (IH s1 l) as (H1 & H2 & H3 & H4 & H5 & H6 & H7).
    + subst s1. unfold process_guard in *. cbn. rewrite Hr', Ho'. exact Hg.
    + subst s1. cbn. congruence.
    + unfold startup_ignore_iters in *. lia.
    + lia.
    + lia.
    + destruct (process rest s1 l) as [[s2 l2] fs]. cbn [fst snd] in *.
      subst fs l2. rewrite H3, H6, H7, Hs1, Hd1.
      split; [reflexivity |]. split; [reflexivity |].
      split; [exact Hp' |]. split; [exact H4 |]. split; [exact H5 |].
      unfold startup_ignore_iters. split; lia.
Qed.

(** X11. A driver to which no frame ever comes is reported current during
    its first fourteen loop iterations after start-up and stalled from the
    fifteenth on: with the counters at zero and nothing in the slot, after n
    iterations isCurrent answers whether n is below startup_ignore_iters.
    Nothing is extracted or published meanwhile. *)
Theorem isCurrent_without_data cs s l :
  process_guard s = true -> newData s = false ->
  iters_since_start s = 0 -> iters_since_data s = 0 ->
  Z.of_nat (length cs) <= INT_MAX ->
  let r := process cs s l in
  isCurrent (fst (fst r)) = (Z.of_nat (length cs) <? startup_ignore_iters)
  /\ snd r = [] /\ published (fst (fst r)) = published s.
Proof.
  intros Hg Hn Hs Hd Hlen r.
  destruct (process_idle cs s l Hg Hn) as (H1 & _ & H3 & _ & _ & H6 & H7);
    [unfold startup_ignore_iters; lia | lia | lia |].
  fold r in H1, H3, H6, H7. unfold isCurrent. rewrite H6, H7, Hs, Hd.
  split; [| auto].
  unfold dropout_allow_iters, startup_ignore_iters.
  destruct (Z.ltb_spec (Z.of_nat (length cs)) 15);
    destruct (Z.ltb_spec (0 + Z.of_nat (length cs)) 5);
    destruct (Z.ltb_spec (Z.min (0 + Z.of_nat (length cs)) (15 + 1)) 15);
    try reflexivity; lia.
Qed.

(** X12. Once start-up is over, a driver whose last iteration took a frame
    stays current through four iterations without data and is reported
    stalled after the fifth: with iters_since_data at zero and
    iters_since_start at or above startup_ignore_iters, after n iterations
    without data isCurrent answers whether n is below dropout_allow_iters. *)
Theorem isCurrent_dropout cs s l :
  process_guard s = true -> newData s = false ->
  startup_ignore_iters <= iters_since_start s <= startup_ignore_iters + 1 ->
  iters_since_data s = 0 ->
  Z.of_nat (length cs) <= INT_MAX ->
  isCurrent (fst (fst (process cs s l)))
  = (Z.of_nat (length cs) <? dropout_allow_iters).
Proof.
  intros Hg Hn Hs Hd Hlen.
  destruct (process_idle cs s l Hg Hn) as (_ & _ & _ & _ & _ & H6 & H7);
    [unfold startup_ignore_iters in *; lia | lia | lia |].
  unfold isCurrent. rewrite H6, H7, Hd.
  unfold dropout_allow_iters, startup_ignore_iters in *.
  destruct (Z.ltb_spec (Z.of_nat (length cs)) 5);
    destruct (Z.ltb_spec (0 + Z.of_nat (length cs)) 5);
    destruct (Z.ltb_spec (Z.min (iters_since_start s + Z.of_nat (length cs)) (15 + 1)) 15);
    try reflexivity; lia.
Qed.

(** X13. An iteration that takes a frame leaves the driver current, whatever
    the counters were before: the liveness check cannot fail right after a
    frame was processed. *)
Theorem isCurrent_after_frame clk s l :
  newData s = true ->
  isCurrent (fst (fst (process_iteration clk s l))) = true.
Proof.
  intros Hn. unfold process_iteration.
  destruct (process_tick_fields s) as (Hn' & _).
  rewrite (process_wait_taken _ _ _ (eq_trans Hn' Hn)).
  match goal with
  | |- context [process_frame ?e ?n ?s1 ?l1] =>
      destruct (process_frame_same e n s1 l1) as [(_ & _ & _ & H0 & _) _];
      destruct (process_frame e n s1 l1) as [s2 l2]
  end.
  cbn [fst snd] in *. unfold isCurrent. rewrite H0. reflexivity.
Qed.


(** *** Executions *)

Implicit Types (σ : Sys D) (ev : Event) (evs : list Event).

(** X14. In every state the driver can reach from start-up, under any
    interleaving of callbacks and loop steps: a set newData flag comes with
    a frame in the slot, the loop holds a frame whenever it is about to
    extract (extractData is never handed a null frame), status has one
    entry per topic, and iters_since_start lies between 0 and
    startup_ignore_iters + 1. *)
Theorem reachable_safe σ :
  reachable σ ->
  (newData (drv σ) = true -> exists d, data (drv σ) = Some d)
  /\ (pc σ = AtFrame -> exists d, l_data (loc σ) = Some d)
  /\ length (status (drv σ)) = COUNT
  /\ 0 <= iters_since_start (drv σ) <= startup_ignore_iters + 1.
Proof.
  intros Hr. destruct (reachable_slot_invariant σ Hr) as (Hn & Hf & Hl & Hi).
  split; [intros H; destruct (Hn H) as [d Hd]; eauto |].
  split; [intros H; destruct (Hf H) as [d Hd]; eauto |].
  split; [assumption | lia].
Qed.

Lemma observed_sublist_pending evs : forall σ,
  (newData (drv σ) = true -> is_Some (data (drv σ))) ->
  sublist (observed evs σ) (Some <$> (pending σ ++ deposited evs)).
Proof.
  induction evs as [| ev rest IH]; intros σ Hinv.
  - cbn. apply sublist_nil_l.
  - cbn [observed]. destruct (takes ev σ) eqn:Ht.
    + (* the loop takes what is pending *)
      unfold takes in Ht. destruct ev as [| | | | clk]; try discriminate.
      destruct (pc σ) eqn:Hpc; try discriminate.
      destruct (Hinv Ht) as [d Hd].
      assert (Hnew : newData (drv (step (EvProcess clk) σ)) = false).
      { cbn. rewrite Hpc, (process_wait_taken _ _ _ Ht). reflexivity. }
      specialize (IH (step (EvProcess clk) σ)).
      unfold pending in IH at 1. rewrite Hnew in IH.
      unfold pending. rewrite Ht, Hd. cbn [option_list app fmap list_fmap deposited flat_map].
      apply sublist_skip. apply IH. intros Hc. congruence.
    + cbn [app]. destruct (is_deposit ev) eqn:Hdep.
      * destruct ev as [d now | | | |]; try discriminate.
        specialize (IH (step (EvNewData d now) σ)).
        unfold pending in IH at 1. cbn in IH.
        cbn [deposited flat_map]. rewrite fmap_app.
        apply sublist_inserts_l. change (d :: deposited rest) with ([d] ++ deposited rest).
        destruct d. apply IH. eauto.
      * destruct (step_keeps_slot ev σ Hdep Ht) as [Hd Hn].
        specialize (IH (step ev σ)).
        unfold pending in *. rewrite Hd, Hn in IH.
        assert (Hnone : deposited (ev :: rest) = deposited rest).
        { destruct ev; try discriminate; reflexivity. }
        rewrite Hnone. apply IH. exact Hinv.
Qed.

(** X15. In any execution from start-up, under any interleaving, the frames
    the loop takes form a subsequence of the frames that were deposited:
    every frame taken is a deposited one, frames are taken in the order of
    their deposit, and none is taken more often than it was deposited. *)
Theorem observed_sublist_deposited evs σ :
  started σ ->
  sublist (observed evs σ) (Some <$> deposited evs).
Proof.
  intros (_ & _ & _ & Hn & _).
  pose proof (observed_sublist_pending evs σ) as H.
  unfold pending in H. rewrite Hn in H. apply H. discriminate.
Qed.


(** *** Deposits and the loop *)

Lemma total_delay_snoc ds d now :
  total_delay (ds ++ [(d, now)]) = total_delay ds + (now - timeStamp d * 1000).
Proof.
  induction ds as [| x rest IH]; cbn; [lia |].
  unfold total_delay in IH. rewrite IH. lia.
Qed.

(** X18. Deposits keep only the newest frame but count every frame's
    reception delay: after any sequence of deposits the slot holds the last
    frame deposited with newData set, and delayReceived has grown by the
    sum of the delays of all of them, the overwritten ones included,
    modulo 2^64. *)
Theorem onNewData_accumulates ds s :
  0 <= delayReceived s < 2 ^ 64 ->
  let s' := deposit_all ds s in
  delayReceived s' = wrap_u64 (delayReceived s + total_delay ds)
  /\ (forall d now, last ds = Some (d, now) -> data s' = Some d /\ newData s' = true).
Proof.
  intros Hr. induction ds as [| [d now] rest IH] using rev_ind.
  - cbn. split; [| discriminate]. unfold wrap_u64. rewrite Z.add_0_r, Z.mod_small; lia.
  - destruct IH as [IHd _]. unfold deposit_all in *. rewrite foldl_app. cbn [foldl fst snd].
    split.
    + cbn [onNewData delayReceived set_newData set_data set_delayReceived].
      rewrite IHd, total_delay_snoc. unfold wrap_u64.
      rewrite Zplus_mod_idemp_l. f_equal. lia.
    + intros d' now' Hl. rewrite last_snoc in Hl. injection Hl as <- <-.
      cbn. destruct d. auto.
Qed.

Lemma process_frame_guard e now s l :
  process_guard (fst (process_frame e now s l)) = process_guard s.
Proof.
  unfold process_frame, process_guard. destruct (l_data l) as [d |]; [| reflexivity].
  unfold publish.
  repeat match goal with |- context [if ?b then _ else _] => destruct b end;
    cbn [fst]; unfold timings;
    repeat match goal with |- context [if ?b then _ else _] => destruct b end;
    reflexivity.
Qed.

(** X19. A run of the loop during which nothing is deposited extracts the
    frame that was waiting in the slot once and no other: with newData set
    and frame d in the slot, the frames process hands to extractData are
    exactly d, however many iterations follow; the iterations after the
    first only count up iters_since_data. *)
Theorem process_takes_once clk cs s l d :
  process_guard s = true -> newData s = true -> data s = Some d ->
  0 <= iters_since_start s <= startup_ignore_iters + 1 ->
  Z.of_nat (length cs) <= INT_MAX ->
  let r := process (clk :: cs) s l in
  snd r = [d]
  /\ l_data (snd (fst r)) = Some d
  /\ newData (fst (fst r)) = false
  /\ iters_since_data (fst (fst r)) = Z.of_nat (length cs).
Proof.
  intros Hg Hn Hd Hs Hlen. cbn [process]. rewrite Hg. unfold process_iteration.
  destruct (process_tick_fields s) as (Hn' & Hd' & _ & Hr' & Ho' & _).
  pose proof (process_tick_bound s Hs) as Hs'.
  rewrite (process_wait_taken _ _ _ (eq_trans Hn' Hn)).
  match goal with
  | |- context [process_frame ?e ?n ?s1 ?l1] =>
      pose proof (process_frame_guard e n s1 l1) as Hg2;
      destruct (process_frame_same e n s1 l1) as [(_ & Hn2 & Hs2 & Hd2 & _) Hl2];
      destruct (process_frame e n s1 l1) as [s2 l2]
  end.
  cbn [fst snd l_data newData iters_since_start iters_since_data set_newData set_data
       set_iters_since_data] in *.
  assert (Hg2' : process_guard s2 = true).
  { rewrite Hg2. unfold process_guard in *. cbn. rewrite Hr', Ho'. exact Hg. }
  destruct (process_idle cs s2 l2 Hg2' Hn2) as (H1 & H2 & _ & H4 & _ & H6 & _);
    [rewrite Hs2; exact Hs' | lia | lia |].
  destruct (process cs s2 l2) as [[s3 l3] fs]. cbn [fst snd] in *.
  subst fs l3. rewrite Hd', Hd, H6, Hd2, Hl2. cbn.
  split; [reflexivity |]. split; [congruence |]. split; [exact H4 | lia].
Qed.

End DriverMore.

(** ** Camera information and camera selection *)

Section CameraInfoFacts.

Context {D : Type} `{Size : ISensorSize D}.

(** X16. createCameraInfo succeeds exactly when the lens has three radial
    distortion coefficients, and a refusal leaves the driver as it was.  On
    success only the camera info changes: D lists the coefficients in the
    plumb_bob order k1, k2, t1, t2, k3, R is the identity, and P is K with
    a fourth column of zeros. *)
Theorem createCameraInfo_spec (params : LensParameters) (s : PicoFlexx D) :
  let r := createCameraInfo params s in
  let info := cameraInfo (snd r) in
  (fst r = true <-> length (distortionRadial params) = 3%nat)
  /\ (fst r = false -> snd r = s)
  /\ (fst r = true ->
      snd r = set_cameraInfo info s
      /\ (forall k1 k2 k3, distortionRadial params = [k1; k2; k3] ->
          ci_D info = [F32.to_double k1; F32.to_double k2;
                       F32.to_double (fst (distortionTangential params));
                       F32.to_double (snd (distortionTangential params));
                       F32.to_double k3])
      /\ (forall row col, (row < 3)%nat -> (col < 3)%nat ->
          ci_P info !! (4 * row + col)%nat = ci_K info !! (3 * row + col)%nat
          /\ ci_R info !! (3 * row + col)%nat
             = Some (if (row =? col)%nat then d_one else d_zero))
      /\ (forall row, (row < 3)%nat -> ci_P info !! (4 * row + 3)%nat = Some d_zero)).
Proof.
  unfold createCameraInfo.
  destruct (Nat.eqb_spec (length (distortionRadial params)) 3) as [Hlen | Hlen];
    cbn [negb fst snd].
  - split; [tauto |]. split; [discriminate |]. intros _.
    split; [reflexivity |]. cbn [cameraInfo set_cameraInfo ci_D ci_K ci_R ci_P].
    split; [| split].
    + intros k1 k2 k3 Hr. unfold radial. rewrite Hr. reflexivity.
    + intros row col Hrow Hcol.
      destruct row as [| [| [| row]]]; [.. | lia];
        destruct col as [| [| [| col]]]; try lia; split; reflexivity.
    + intros row Hrow. destruct row as [| [| [| row]]]; [.. | lia]; reflexivity.
  - split; [split; [discriminate | contradiction] |].
    split; [reflexivity | discriminate].
Qed.

End CameraInfoFacts.

Section SelectCameraFacts.

Variable _id : string.

Lemma scanCameras_no_match camlist : forall i index,
  (forall j, camlist !! j <> Some _id) -> scanCameras _id camlist i index = index.
Proof.
  induction camlist as [| cam rest IH]; intros i index Hno; [reflexivity |].
  cbn. destruct (String.eqb_spec _id cam) as [-> | Hne].
  - exfalso. apply (Hno 0%nat). reflexivity.
  - apply IH. intros j. apply (Hno (S j)).
Qed.

Lemma scanCameras_last camlist : forall i index j,
  camlist !! j = Some _id -> (forall k, (j < k)%nat -> camlist !! k <> Some _id) ->
  scanCameras _id camlist i index = wrap_int (Z.of_nat (i + j)).
Proof.
  induction camlist as [| cam rest IH]; intros i index j Hj Hlast; [discriminate |].
  cbn. destruct j as [| j'].
  - injection Hj as ->. rewrite String.eqb_refl, Nat.add_0_r.
    apply scanCameras_no_match. intros k. apply (Hlast (S k)). lia.
  - replace (i + S j')%nat with (S i + j')%nat by lia.
    apply IH; [exact Hj |]. intros k Hk. apply (Hlast (S k)). lia.
Qed.

(* a list has a last position holding [_id], or none at all *)
Lemma last_match (camlist : list string) :
  (forall j, camlist !! j <> Some _id)
  \/ exists j, camlist !! j = Some _id
               /\ forall k, (j < k)%nat -> camlist !! k <> Some _id.
Proof.
  induction camlist as [| cam rest IH]; [left; intros j; discriminate |].
  destruct IH as [Hno | (j & Hj & Hlast)].
  - destruct (String.eqb_spec _id cam) as [-> | Hne].
    + right. exists 0%nat. split; [reflexivity |].
      intros [| k] Hk; [lia | apply Hno].
    + left. intros [| j]; [cbn; congruence | apply Hno].
  - right. exists (S j). split; [exact Hj |].
    intros [| k] Hk; [lia |]. apply Hlast. lia.
Qed.

End SelectCameraFacts.

(** X17. selectCamera fails with no camera connected, and with a non-empty id
    that no connected camera has.  Otherwise it selects the last camera in
    the list whose id is the wanted one; an empty id stands for the id of
    the first camera, so with an empty id a camera is always selected. *)
Theorem selectCamera_index_spec (id : string) (camlist : list string) :
  Z.of_nat (length camlist) <= INT_MAX ->
  match selectCamera_index id camlist with
  | NoCameras => camlist = []
  | NotFound wanted =>
      id <> "" /\ wanted = id /\ forall j, camlist !! j <> Some id
  | Selected index =>
      exists j wanted,
        index = Z.of_nat j
        /\ (if String.eqb id "" then head camlist = Some wanted else wanted = id)
        /\ camlist !! j = Some wanted
        /\ forall k, (j < k)%nat -> camlist !! k <> Some wanted
  end.
Proof.
  intros Hlen. unfold selectCamera_index.
  destruct camlist as [| first rest] eqn:Hc; [reflexivity |]. rewrite <- Hc in *.
  set (wanted := if String.eqb id "" then first else id).
  destruct (last_match wanted camlist) as [Hno | (j & Hj & Hlast)].
  - rewrite (scanCameras_no_match wanted camlist 0 (-1) Hno). cbn.
    destruct (String.eqb_spec id "") as [He | He]; subst wanted.
    + exfalso. apply (Hno 0%nat). rewrite Hc. reflexivity.
    + auto.
  - rewrite (scanCameras_last wanted camlist 0 (-1) j Hj Hlast). cbn [Nat.add].
    assert (Hjlen : (j < length camlist)%nat) by (apply lookup_lt_Some in Hj; exact Hj).
    rewrite wrap_int_id by (unfold INT_MAX in *; lia).
    destruct (Z.ltb_spec (Z.of_nat j) 0); [lia |].
    exists j, wanted. split; [reflexivity |].
    split; [| split; assumption].
    subst wanted. rewrite Hc. destruct (String.eqb id ""); reflexivity.
Qed.

(** ** The statements above at concrete inputs *)

Lemma extractData_buffers_witness :
  anyPointTopic all_subscribed = true
  /\ img_data (msgMono16 (extractData all_subscribed CameraInfo_new "pico_flexx"
                            (F32.of_double d_0_07) example_frame used_messages))
     = grayValue <$> points example_frame.
Proof.
  split; [reflexivity |].
  apply (extractData_buffers all_subscribed CameraInfo_new "pico_flexx"
           (F32.of_double d_0_07) example_frame used_messages eq_refl).
Defined.

Lemma extractData_forgets_witness :
  anyPointTopic all_subscribed = true
  /\ msgCloud (extractData all_subscribed CameraInfo_new "pico_flexx"
                 (F32.of_double d_0_07) example_frame used_messages)
     = msgCloud (extractData all_subscribed CameraInfo_new "pico_flexx"
                   (F32.of_double d_0_07) example_frame OutputSet_new).
Proof.
  split; [reflexivity |].
  apply (extractData_forgets all_subscribed CameraInfo_new "pico_flexx"
           (F32.of_double d_0_07) example_frame used_messages OutputSet_new eq_refl).
Defined.

Lemma extractData_layout_witness :
  0 <= width example_frame < 2 ^ 16
  /\ Z.of_nat (length (points example_frame)) = width example_frame * height example_frame
  /\ pc_row_step (msgCloud (extractData all_subscribed CameraInfo_new "pico_flexx"
                              (F32.of_double d_0_07) example_frame OutputSet_new))
     = pc_point_step (msgCloud (extractData all_subscribed CameraInfo_new "pico_flexx"
                                  (F32.of_double d_0_07) example_frame OutputSet_new))
       * pc_width (msgCloud (extractData all_subscribed CameraInfo_new "pico_flexx"
                               (F32.of_double d_0_07) example_frame OutputSet_new)).
Proof.
  assert (Hw : 0 <= width example_frame < 2 ^ 16)
    by (vm_compute; split; [discriminate | reflexivity]).
  assert (Hn : Z.of_nat (length (points example_frame))
               = width example_frame * height example_frame) by reflexivity.
  split; [exact Hw |]. split; [exact Hn |].
  apply (extractData_layout all_subscribed CameraInfo_new "pico_flexx"
           (F32.of_double d_0_07) example_frame OutputSet_new eq_refl Hw Hn).
Defined.

Lemma process_frame_publishes_witness :
  l_data example_locals = Some example_frame
  /\ exists new,
       published (fst (process_frame 0 0 depth_driver example_locals))
       = published depth_driver ++ new
       /\ msg_topic <$> new
          = filter (fun t => status_at (status depth_driver) t = true) all_topics
       /\ Forall (fun m => msg_header m
                           = frameHeader (baseNameTF depth_driver) example_frame) new.
Proof.
  split; [reflexivity |].
  apply (process_frame_publishes 0 0 depth_driver example_locals example_frame eq_refl).
Defined.

Lemma callbackTopicStatus_status_witness :
  length (status (example_driver cam_auto)) = COUNT
  /\ status_at (status (callbackTopicStatus depth_subscriber (example_driver cam_auto)))
       DEPTH
     = (0 <? depth_subscriber (topic_index DEPTH)).
Proof.
  split; [reflexivity |].
  apply (callbackTopicStatus_status depth_subscriber (example_driver cam_auto) eq_refl).
Defined.

Lemma callbackConfig_exposure_camera_decides_witness :
  let s := example_driver cam_manual in
  let c := example_config "MODE_5_45FPS_500" 1 400 in
  royale.getExposureMode (cameraDevice s) = royale.MANUAL
  /\ ~ outside_limits (wrap_u32 (exposure_time c)) (cameraDevice s)
  /\ exposure_time (config (snd (callbackConfig c 0x04 s))) = 400.
Proof.
  intros s c.
  assert (Hin : ~ outside_limits (wrap_u32 (exposure_time c)) (cameraDevice s)).
  { intros [H | H]; vm_compute in H; discriminate. }
  split; [reflexivity |]. split; [exact Hin |].
  destruct (callbackConfig_exposure_camera_decides c 0x04 s c s) as (H & _);
    [discriminate | reflexivity | reflexivity | reflexivity | exact Hin |].
  vm_compute in H. vm_compute. exact H.
Defined.

Lemma callbackConfig_use_case_refused_witness :
  let s := locked_driver cam_manual in
  let c := example_config "MODE_9_5FPS_2000" 1 400 in
  fst (setUseCase (use_case c) s) = false
  /\ callbackConfig c 0x0D s
     = (set_use_case (use_case (config s)) c,
        set_cameraDevice (snd (royale.setUseCase (use_case c) (cameraDevice s))) s).
Proof.
  intros s c.
  assert (Hf : fst (setUseCase (use_case c) s) = false) by (vm_compute; reflexivity).
  split; [exact Hf |].
  apply (callbackConfig_use_case_refused c 0x0D s); [discriminate | reflexivity | exact Hf].
Defined.

Lemma callbackConfig_refreshes_limits_witness :
  let s := example_driver cam_manual in
  let c := example_config "MODE_9_5FPS_2000" 1 300 in
  exposure_time (configMax s) = 500
  /\ exposure_time (configMax (snd (callbackConfig c 0x01 s)))
     = wrap_int (snd (royale.getExposureLimits
                        (cameraDevice (snd (callbackConfig c 0x01 s))))).
Proof.
  intros s c. split; [reflexivity |].
  assert (Hdev : reconfigureDevice 0x01 c s
                 = Continue (c, snd (finish (reconfigureDevice 0x01 c s))))
    by (vm_compute; reflexivity).
  apply (callbackConfig_refreshes_limits c 0x01 s c _ ltac:(discriminate) eq_refl eq_refl
           Hdev).
Defined.

Lemma onNewExposure_idempotent_witness :
  exposureTimes (onNewExposure 1200 (example_driver cam_auto))
  <> exposureTimes (example_driver cam_auto)
  /\ exposure_time (config (onNewExposure 1200 (example_driver cam_auto)))
     = wrap_int 1200.
Proof.
  assert (Hne : exposureTimes (onNewExposure 1200 (example_driver cam_auto))
                <> exposureTimes (example_driver cam_auto)) by discriminate.
  split; [exact Hne |].
  destruct (onNewExposure_idempotent 1200 (example_driver cam_auto)) as (_ & _ & H).
  apply H, Hne.
Defined.

Lemma isCurrent_without_data_witness :
  process_guard (example_driver cam_auto) = true
  /\ isCurrent (fst (fst (process (replicate 15 clock0) (example_driver cam_auto)
                            Locals_new)))
     = (Z.of_nat (length (replicate 15 clock0)) <? startup_ignore_iters).
Proof.
  split; [reflexivity |].
  apply (isCurrent_without_data (replicate 15 clock0) (example_driver cam_auto) Locals_new
           eq_refl eq_refl eq_refl eq_refl).
  vm_compute. discriminate.
Defined.

Lemma isCurrent_dropout_witness :
  let s := set_iters_since_start 16 (example_driver cam_auto) in
  startup_ignore_iters <= iters_since_start s <= startup_ignore_iters + 1
  /\ isCurrent (fst (fst (process (replicate 5 clock0) s Locals_new)))
     = (Z.of_nat (length (replicate 5 clock0)) <? dropout_allow_iters).
Proof.
  intros s.
  assert (Hs : startup_ignore_iters <= iters_since_start s <= startup_ignore_iters + 1)
    by (vm_compute; split; discriminate).
  split; [exact Hs |].
  apply (isCurrent_dropout (replicate 5 clock0) s Locals_new eq_refl eq_refl Hs eq_refl).
  vm_compute. discriminate.
Defined.

Lemma isCurrent_after_frame_witness :
  newData (onNewData example_frame 1500 (example_driver cam_auto)) = true
  /\ isCurrent (fst (fst (process_iteration clock0
                            (onNewData example_frame 1500 (example_driver cam_auto))
                            Locals_new)))
     = true.
Proof.
  split; [reflexivity |].
  apply (isCurrent_after_frame clock0
           (onNewData example_frame 1500 (example_driver cam_auto)) Locals_new eq_refl).
Defined.

Lemma example_sys_started : started (example_sys cam_auto).
Proof. repeat split. Qed.

Lemma reachable_safe_witness :
  reachable waiting_sys /\ length (status (drv waiting_sys)) = COUNT.
Proof.
  assert (Hr : reachable waiting_sys).
  { apply reachable_step, reachable_started, example_sys_started. }
  split; [exact Hr |].
  destruct (reachable_safe waiting_sys Hr) as (_ & _ & Hl & _). exact Hl.
Defined.

Lemma observed_sublist_deposited_witness :
  started (example_sys cam_auto)
  /\ sublist
       (observed [EvNewData example_frame 1500; EvProcess clock0;
                  EvNewData example_frame2 106500; EvProcess clock0]
          (example_sys cam_auto))
       (Some <$> deposited [EvNewData example_frame 1500; EvProcess clock0;
                            EvNewData example_frame2 106500; EvProcess clock0]).
Proof.
  split; [exact example_sys_started |].
  apply (observed_sublist_deposited _ _ example_sys_started).
Defined.

Lemma createCameraInfo_spec_witness :
  fst (createCameraInfo example_lens (example_driver cam_auto)) = true
  /\ ci_P (cameraInfo (snd (createCameraInfo example_lens (example_driver cam_auto))))
     !! 3%nat = Some d_zero.
Proof.
  assert (Hok : fst (createCameraInfo example_lens (example_driver cam_auto)) = true)
    by reflexivity.
  split; [exact Hok |].
  destruct (createCameraInfo_spec example_lens (example_driver cam_auto))
    as (_ & _ & H).
  destruct (H Hok) as (_ & _ & _ & Hp). apply (Hp 0%nat). lia.
Defined.

Lemma selectCamera_index_spec_witness :
  Z.of_nat (length example_cameras) <= INT_MAX
  /\ match selectCamera_index "" example_cameras with
     | NoCameras => example_cameras = []
     | NotFound wanted =>
         "" <> "" /\ wanted = "" /\ forall j, example_cameras !! j <> Some ""
     | Selected index =>
         exists j wanted,
           index = Z.of_nat j
           /\ (if String.eqb "" "" then head example_cameras = Some wanted
               else wanted = "")
           /\ example_cameras !! j = Some wanted
           /\ forall k, (j < k)%nat -> example_cameras !! k <> Some wanted
     end.
Proof.
  assert (Hlen : Z.of_nat (length example_cameras) <= INT_MAX)
    by (vm_compute; discriminate).
  split; [exact Hlen |].
  apply (selectCamera_index_spec "" example_cameras Hlen).
Defined.

(* with an empty id and these cameras, the third one is created *)
Example selectCamera_index_example :
  selectCamera_index "" example_cameras = Selected 2
  /\ selectCamera_index "0007-0455" example_cameras = Selected 1
  /\ selectCamera_index "0009-0001" example_cameras = NotFound "0009-0001"
  /\ selectCamera_index "" [] = NoCameras.
Proof. vm_compute. repeat split; reflexivity. Qed.

Lemma onNewData_accumulates_witness :
  0 <= delayReceived (example_driver cam_auto) < 2 ^ 64
  /\ data (deposit_all example_deposits (example_driver cam_auto)) = Some example_frame2
  /\ delayReceived (deposit_all example_deposits (example_driver cam_auto))
     = wrap_u64 (delayReceived (example_driver cam_auto) + total_delay example_deposits).
Proof.
  assert (Hr : 0 <= delayReceived (example_driver cam_auto) < 2 ^ 64)
    by (vm_compute; split; [discriminate | reflexivity]).
  split; [exact Hr |].
  destruct (onNewData_accumulates example_deposits (example_driver cam_auto) Hr)
    as (Hd & Hl).
  split; [| exact Hd]. apply (Hl example_frame2 106500). reflexivity.
Defined.

Lemma process_takes_once_witness :
  let s := onNewData example_frame 1500 (example_driver cam_auto) in
  data s = Some example_frame
  /\ snd (process (clock0 :: replicate 3 clock0) s Locals_new) = [example_frame].
Proof.
  intros s.
  assert (Hs : 0 <= iters_since_start s <= startup_ignore_iters + 1)
    by (vm_compute; split; discriminate).
  split; [reflexivity |].
  apply (process_takes_once clock0 (replicate 3 clock0) s Locals_new example_frame
           eq_refl eq_refl eq_refl Hs).
  vm_compute. discriminate.
Defined.
